(** * Runner usage analyzer

    A shallow embedding of [runner_usage_analyzer.py] (class
    [RunnerUsageAnalyzer]) and the properties of its record classifier,
    duration calculator, usage collector and aggregator.

    Conventions of the embedding:
    - Python [str] is [string]; the text handled here (runner labels,
      grouping field names, timestamps) is taken to be ASCII, and the case
      functions below leave every other byte alone;
    - Python [int] is [Z];
    - a call that may raise is a [result]: [Return v] or [Raise e];
    - the dictionaries with a fixed key set that the program builds are
      records, looked up by key name where the program selects a key at run
      time;
    - [defaultdict(list)], whose iteration order is its insertion order, is an
      association list. *)

From Stdlib Require Import ZArith String Ascii List Bool Lia Permutation.
From Stdlib Require Import DecimalString.
Import ListNotations.

Open Scope string_scope.
Open Scope Z_scope.

(** ** Python values and exceptions *)

Module Py.

(** The exceptions that occur in the embedded code. *)
Inductive exception : Type :=
| ValueError
| TypeError
| AttributeError
| GitHubAPIError.

Inductive result (A : Type) : Type :=
| Return (a : A)
| Raise (e : exception).

Arguments Return {A} a.
Arguments Raise {A} e.

Definition bind {A B : Type} (m : result A) (k : A -> result B) : result B :=
  match m with
  | Return a => k a
  | Raise e => Raise e
  end.

(** [try: body except (e1, e2, ...): handler]. *)
Definition try_except {A : Type} (body : result A)
    (catches : exception -> bool) (handler : result A) : result A :=
  match body with
  | Return a => Return a
  | Raise e => if catches e then handler else Raise e
  end.

(** The scalar values stored in the program's dictionaries. *)
Inductive value : Type :=
| VNone
| VInt (z : Z)
| VStr (s : string).

Definition value_eqb (a b : value) : bool :=
  match a, b with
  | VNone, VNone => true
  | VInt x, VInt y => Z.eqb x y
  | VStr x, VStr y => String.eqb x y
  | _, _ => false
  end.

(** A key of a JSON object as [dict.get] sees it: missing, present with
    [null], or present with a value. *)
Inductive field (A : Type) : Type :=
| Absent
| Null
| Present (a : A).

Arguments Absent {A}.
Arguments Null {A}.
Arguments Present {A} a.

(** [d.get(k)]: [None] when the key is missing or holds [null]. *)
Definition get {A : Type} (f : field A) : option A :=
  match f with
  | Present a => Some a
  | _ => None
  end.

(** [d.get(k, default)], as a [value]: the default replaces a missing key
    only, a [null] stays [None]. *)
Definition get_default {A : Type} (inj : A -> value) (f : field A)
    (default : value) : value :=
  match f with
  | Absent => default
  | Null => VNone
  | Present a => inj a
  end.

(** *** Strings *)

Definition is_upper (c : ascii) : bool :=
  (("A" <=? c) && (c <=? "Z"))%char.

Definition is_lower (c : ascii) : bool :=
  (("a" <=? c) && (c <=? "z"))%char.

Definition to_lower (c : ascii) : ascii :=
  if is_upper c then ascii_of_nat (nat_of_ascii c + 32) else c.

Definition to_upper (c : ascii) : ascii :=
  if is_lower c then ascii_of_nat (nat_of_ascii c - 32) else c.

(** [s.lower()] *)
Fixpoint lower (s : string) : string :=
  match s with
  | EmptyString => EmptyString
  | String c s' => String (to_lower c) (lower s')
  end.

(** [s.title()]: a letter that follows a letter is lowered, any other
    letter is raised. *)
Fixpoint title_from (previous_is_cased : bool) (s : string) : string :=
  match s with
  | EmptyString => EmptyString
  | String c s' =>
      if is_lower c then
        String (if previous_is_cased then c else to_upper c)
               (title_from true s')
      else if is_upper c then
        String (if previous_is_cased then to_lower c else c)
               (title_from true s')
      else String c (title_from false s')
  end.

Definition title (s : string) : string := title_from false s.

(** [sub in s] *)
Fixpoint contains (sub s : string) : bool :=
  String.prefix sub s
  || match s with
     | EmptyString => false
     | String _ s' => contains sub s'
     end.

(** [sep.join(l)] *)
Definition join (sep : string) (l : list string) : string :=
  String.concat sep l.

(** [s.replace(old, new)] for a non-empty [old]: occurrences are replaced
    from the left and do not overlap; [skip] counts the characters of a
    match still to be dropped. *)
Fixpoint replace_from (skip : nat) (old new s : string) : string :=
  match s with
  | EmptyString => EmptyString
  | String c s' =>
      match skip with
      | S k => replace_from k old new s'
      | O =>
          if String.prefix old s
          then new ++ replace_from (String.length old - 1) old new s'
          else String c (replace_from O old new s')
      end
  end.

Definition replace (old new s : string) : string := replace_from O old new s.

(** [bool(s)] for a string. *)
Definition truthy (s : string) : bool :=
  match s with
  | EmptyString => false
  | _ => true
  end.

(** [str(n)] for a natural number. *)
Definition decimal (n : Z) : string :=
  NilZero.string_of_uint (N.to_uint (Z.to_N n)).

(** [f"{n:02d}"]: zero padding to width two, the sign counted in the
    width. *)
Definition format_02d (n : Z) : string :=
  if n <? 0 then "-" ++ decimal (- n)
  else if n <? 10 then "0" ++ decimal n
  else decimal n.

End Py.

Import Py.

Declare Scope py_scope.
Delimit Scope py_scope with py.
Notation "x <- m ;; k" := (bind m (fun x => k))
  (at level 61, m at next level, right associativity) : py_scope.
Open Scope py_scope.

(** ** Record classifier *)

(** [_categorize_runner] *)
Definition _categorize_runner (labels : list string) : string :=
  let labels_str := lower (join " " labels) in
  if contains "self-hosted" labels_str then "Self-hosted"
  else if existsb (fun gh_label => contains gh_label labels_str)
            ["ubuntu-latest"; "windows-latest"; "macos-latest"]
  then "GitHub-hosted"
  else if contains "ubuntu" labels_str then "Ubuntu"
  else if contains "windows" labels_str then "Windows"
  else if contains "macos" labels_str then "macOS"
  else if contains "linux" labels_str then "Linux"
  else "Unknown".

(** [_get_cost_category] *)
Definition _get_cost_category (labels : list string) : string :=
  let labels_str := lower (join " " labels) in
  if contains "self-hosted" labels_str then "Self-hosted (Custom Cost)"
  else if existsb (fun size => contains size labels_str)
            ["large"; "xl"; "xxl"; "4-core"; "8-core"; "16-core"]
  then "Large Instance"
  else if existsb (fun gh_label => contains gh_label labels_str)
            ["ubuntu-latest"; "windows-latest"; "macos-latest"]
  then "Standard GitHub-hosted"
  else "Standard".

(** ** [datetime] *)

Module DateTime.

(** A [datetime]; [utcoffset] is [None] for a naive value, else the offset
    east of UTC in microseconds. *)
Record datetime : Type := {
  year : Z;
  month : Z;
  day : Z;
  hour : Z;
  minute : Z;
  second : Z;
  microsecond : Z;
  utcoffset : option Z
}.

Definition is_leap (y : Z) : bool :=
  (y mod 4 =? 0) && (negb (y mod 100 =? 0) || (y mod 400 =? 0)).

Definition days_before_year (y : Z) : Z :=
  let y := y - 1 in y * 365 + y / 4 - y / 100 + y / 400.

Definition days_in_month (y m : Z) : Z :=
  if (m =? 2) && is_leap y then 29
  else nth (Z.to_nat m) [0; 31; 28; 31; 30; 31; 30; 31; 31; 30; 31; 30; 31] 0.

Definition days_before_month (y m : Z) : Z :=
  nth (Z.to_nat m) [0; 0; 31; 59; 90; 120; 151; 181; 212; 243; 273; 304; 334] 0
  + (if (2 <? m) && is_leap y then 1 else 0).

(** [toordinal()] *)
Definition toordinal (d : datetime) : Z :=
  days_before_year (year d) + days_before_month (year d) (month d) + day d.

(** The constructor's range checks. *)
Definition valid (d : datetime) : bool :=
  (1 <=? year d) && (year d <=? 9999)
  && (1 <=? month d) && (month d <=? 12)
  && (1 <=? day d) && (day d <=? days_in_month (year d) (month d))
  && (0 <=? hour d) && (hour d <=? 23)
  && (0 <=? minute d) && (minute d <=? 59)
  && (0 <=? second d) && (second d <=? 59)
  && (0 <=? microsecond d) && (microsecond d <=? 999999)
  && match utcoffset d with
     | None => true
     | Some o => (-86400000000 <? o) && (o <? 86400000000)
     end.

Definition digit (c : ascii) : option Z :=
  if (("0" <=? c) && (c <=? "9"))%char
  then Some (Z.of_nat (nat_of_ascii c) - 48)
  else None.

(** Exactly [n] decimal digits at the head of [s]. *)
Fixpoint digits (n : nat) (acc : Z) (s : string) : option (Z * string) :=
  match n with
  | O => Some (acc, s)
  | S n' =>
      match s with
      | String c s' =>
          match digit c with
          | Some d => digits n' (acc * 10 + d) s'
          | None => None
          end
      | EmptyString => None
      end
  end.

Definition expect (c : ascii) (s : string) : option string :=
  match s with
  | String c' s' => if (c =? c')%char then Some s' else None
  | EmptyString => None
  end.

(** [YYYY-MM-DD], and what follows it. *)
Definition parse_date (s : string) : option (Z * Z * Z * string) :=
  match digits 4 0 s with
  | Some (y, s) =>
      match expect "-" s with
      | Some s =>
          match digits 2 0 s with
          | Some (m, s) =>
              match expect "-" s with
              | Some s =>
                  match digits 2 0 s with
                  | Some (d, s) => Some (y, m, d, s)
                  | None => None
                  end
              | None => None
              end
          | None => None
          end
      | None => None
      end
  | None => None
  end.

(** The fraction [.fff] or [.ffffff], in microseconds. *)
Definition parse_fraction (s : string) : option Z :=
  match String.length s with
  | 3%nat =>
      match digits 3 0 s with
      | Some (f, _) => Some (f * 1000)
      | None => None
      end
  | 6%nat =>
      match digits 6 0 s with
      | Some (f, _) => Some f
      | None => None
      end
  | _ => None
  end.

(** [HH[:MM[:SS[.fff[fff]]]]] *)
Definition parse_hh_mm_ss_ff (s : string) : option (Z * Z * Z * Z) :=
  match digits 2 0 s with
  | Some (h, EmptyString) => Some (h, 0, 0, 0)
  | Some (h, String ":" s) =>
      match digits 2 0 s with
      | Some (m, EmptyString) => Some (h, m, 0, 0)
      | Some (m, String ":" s) =>
          match digits 2 0 s with
          | Some (sec, EmptyString) => Some (h, m, sec, 0)
          | Some (sec, String "." s) =>
              match parse_fraction s with
              | Some f => Some (h, m, sec, f)
              | None => None
              end
          | _ => None
          end
      | _ => None
      end
  | _ => None
  end.

(** The time string cut at its first sign. *)
Fixpoint split_at_sign (s : string) : string * option (ascii * string) :=
  match s with
  | EmptyString => (EmptyString, None)
  | String c s' =>
      if ((c =? "+") || (c =? "-"))%char then (EmptyString, Some (c, s'))
      else let '(t, tz) := split_at_sign s' in (String c t, tz)
  end.

(** The offset [HH:MM[:SS[.ffffff]]] after the sign. *)
Definition parse_offset (sign : ascii) (s : string) : option Z :=
  match String.length s with
  | 5%nat | 8%nat | 15%nat =>
      match parse_hh_mm_ss_ff s with
      | Some (h, m, sec, f) =>
          let o := ((h * 3600 + m * 60 + sec) * 1000000 + f) in
          Some (if (sign =? "-")%char then - o else o)
      | None => None
      end
  | _ => None
  end.

(** [datetime.fromisoformat(s)] on the format that [isoformat()] writes
    and that every version of the function reads,
    [YYYY-MM-DD[*HH[:MM[:SS[.fff[fff]]]][+HH:MM[:SS[.ffffff]]]]], where [*]
    is any one character; [ValueError] on anything else or on a field out of
    range. Later versions of Python read further ISO 8601 forms, which this
    model refuses: a [Return] of the model is the value that every version
    gives, a [Raise] of the model says nothing about the newer ones. *)
Definition fromisoformat (s : string) : result datetime :=
  let check d := if valid d then Return d else Raise ValueError in
  match parse_date s with
  | Some (y, m, d, EmptyString) => check (Build_datetime y m d 0 0 0 0 None)
  | Some (y, m, d, String _ tstr) =>
      let '(timestr, tz) := split_at_sign tstr in
      match parse_hh_mm_ss_ff timestr with
      | Some (h, mi, sec, f) =>
          match tz with
          | None => check (Build_datetime y m d h mi sec f None)
          | Some (sign, tzstr) =>
              match parse_offset sign tzstr with
              | Some o => check (Build_datetime y m d h mi sec f (Some o))
              | None => Raise ValueError
              end
          end
      | None => Raise ValueError
      end
  | None => Raise ValueError
  end.

(** [a - b], a [timedelta] in microseconds; [TypeError] when exactly one of
    the two is naive. *)
Definition sub (a b : datetime) : result Z :=
  let secs d := second d + minute d * 60 + hour d * 3600 in
  let base := ((toordinal a - toordinal b) * 86400 + (secs a - secs b))
              * 1000000 + (microsecond a - microsecond b) in
  match utcoffset a, utcoffset b with
  | None, None => Return base
  | Some myoff, Some otoff => Return (base + otoff - myoff)
  | _, _ => Raise TypeError
  end.

(** [int(delta.total_seconds())]: the whole seconds, rounded towards zero. *)
Definition int_total_seconds (delta : Z) : Z := Z.quot delta 1000000.

End DateTime.

(** ** Duration calculator *)

(** A job as the jobs endpoint lists it. [job\['name'\]] is read by
    subscript, every other key through [get]. *)
Record Job : Type := {
  job_name : string;
  job_labels : field (list string);
  job_status : field string;
  job_started_at : field string;
  job_completed_at : field string;
  job_id : field Z;
  job_conclusion : field string;
  job_html_url : field string
}.

(** [self.<name>]: [attribute] is what the lookup on the instance and its
    class finds, [AttributeError] when it finds nothing. *)
Definition getattr {A : Type} (attribute : option A) : result A :=
  match attribute with
  | Some a => Return a
  | None => Raise AttributeError
  end.

(** [and] on two optional strings as the condition of an [if]. *)
Definition both_truthy (a b : option string) : option (string * string) :=
  match a, b with
  | Some x, Some y => if truthy x && truthy y then Some (x, y) else None
  | _, _ => None
  end.

(** The body of [_calculate_duration], with what [self._parse_iso_datetime]
    finds as an argument. *)
Definition _calculate_duration_with
    (_parse_iso_datetime : option (string -> result (option DateTime.datetime)))
    (job : Job) : result string :=
  let fall_through := Return "unknown" in
  try_except
    (let started_at := get (job_started_at job) in
     let completed_at := get (job_completed_at job) in
     match both_truthy started_at completed_at with
     | Some (started_at, completed_at) =>
         start_time <- DateTime.fromisoformat (replace "Z" "+00:00" started_at) ;;
         end_time <- DateTime.fromisoformat (replace "Z" "+00:00" completed_at) ;;
         duration <- DateTime.sub end_time start_time ;;
         let total_seconds := DateTime.int_total_seconds duration in
         let minutes := total_seconds / 60 in
         let seconds := total_seconds mod 60 in
         parse <- getattr _parse_iso_datetime ;;
         start_time <- parse started_at ;;
         end_time <- parse completed_at ;;
         match start_time, end_time with
         | Some start_time, Some end_time =>
             duration <- DateTime.sub end_time start_time ;;
             let total_seconds := DateTime.int_total_seconds duration in
             let minutes := total_seconds / 60 in
             let seconds := total_seconds mod 60 in
             Return (format_02d minutes ++ ":" ++ format_02d seconds)
         | _, _ => fall_through
         end
     | None => fall_through
     end)
    (fun e => match e with ValueError | TypeError => true | _ => false end)
    fall_through.

(** [_calculate_duration]. Class [RunnerUsageAnalyzer] defines
    [__init__], [setup_logging], [make_api_request], [get_repositories],
    [get_workflow_runs], [get_jobs_for_run], [analyze_runner_usage],
    [_calculate_duration], [_categorize_runner], [_get_cost_category] and
    [_group_results], has no base class, and [__init__] sets the data
    attributes [github_token], [org_name], [headers] and [logger]: the
    lookup of [_parse_iso_datetime] finds nothing. *)
Definition _calculate_duration (job : Job) : result string :=
  _calculate_duration_with None job.

(** ** Usage collector *)

(** A repository as the organization's repository listing gives it;
    [name] and [default_branch] are read by subscript. *)
Record Repository : Type := {
  repo_name : string;
  repo_default_branch : string;
  repo_size : field Z;
  repo_language : field string;
  repo_visibility : field string
}.

(** A workflow run; [name] and [id] are read by subscript. *)
Record WorkflowRun : Type := {
  run_name : value;
  run_id : Z;
  run_path : field string
}.

(** The dictionary appended to [results] for a job. *)
Record JobRecord : Type := {
  Org : string;
  Repo : string;
  Branch : string;
  Workflow_File : value;
  Workflow_Name : value;
  Runner_Labels : string;
  Runner_Type : string;
  Cost_Category : string;
  Job_Name : string;
  Job_Status : value;
  Run_Date : value;
  Completed_Date : value;
  Duration : string;
  Run_ID : Z;
  Job_ID : value;
  Conclusion : value;
  HTML_URL : value;
  Repository_Size : value;
  Repository_Language : value;
  Repository_Visibility : value
}.

(** The keys of that dictionary with their values, in the order of the
    dictionary display. *)
Definition items (r : JobRecord) : list (string * value) :=
  [("Org", VStr (Org r));
   ("Repo", VStr (Repo r));
   ("Branch", VStr (Branch r));
   ("Workflow File", Workflow_File r);
   ("Workflow Name", Workflow_Name r);
   ("Runner Labels", VStr (Runner_Labels r));
   ("Runner Type", VStr (Runner_Type r));
   ("Cost Category", VStr (Cost_Category r));
   ("Job Name", VStr (Job_Name r));
   ("Job Status", Job_Status r);
   ("Run Date", Run_Date r);
   ("Completed Date", Completed_Date r);
   ("Duration", VStr (Duration r));
   ("Run ID", VInt (Run_ID r));
   ("Job ID", Job_ID r);
   ("Conclusion", Conclusion r);
   ("HTML URL", HTML_URL r);
   ("Repository Size", Repository_Size r);
   ("Repository Language", Repository_Language r);
   ("Repository Visibility", Repository_Visibility r)].

Fixpoint lookup (key : string) (l : list (string * value)) : option value :=
  match l with
  | [] => None
  | (k, v) :: l' => if String.eqb k key then Some v else lookup key l'
  end.

(** [result.get(key, default)] on a job record. *)
Definition record_get (r : JobRecord) (key : string) (default : value)
    : value :=
  match lookup key (items r) with
  | Some v => v
  | None => default
  end.

(** The paginated-fetch capability: what [make_api_request] returns, or
    raises, for each of the three requests the collector makes. A transport
    or HTTP failure is [Raise GitHubAPIError]. *)
Record GitHubAPI : Type := {
  (** the page [page] of [/orgs/{org}/repos] *)
  org_repos : Z -> result (list Repository);
  (** [data.get('workflow_runs')] of [/repos/{org}/{repo}/actions/runs] for
      the repository, the [branch] parameter when one is sent, and
      [days_back]; [None] when the key is missing *)
  workflow_runs :
    string -> option string -> Z -> result (option (list WorkflowRun));
  (** [data.get('jobs')] of [/repos/{org}/{repo}/actions/runs/{run_id}/jobs] *)
  run_jobs : string -> Z -> result (option (list Job))
}.

(** [for x in l: body], the body threading the state [s]. *)
Fixpoint for_each {A S : Type} (l : list A) (body : A -> S -> result S)
    (s : S) : result S :=
  match l with
  | [] => Return s
  | x :: l' => s' <- body x s ;; for_each l' body s'
  end.

Definition except_GitHubAPIError (e : exception) : bool :=
  match e with
  | GitHubAPIError => true
  | _ => false
  end.

(** [x in l] for a list of strings. *)
Definition mem (x : string) (l : list string) : bool :=
  existsb (String.eqb x) l.

(** [s.lower()] on the value of a field: [None] has no such method. *)
Definition value_lower (v : value) : result string :=
  match v with
  | VStr s => Return (lower s)
  | _ => Raise AttributeError
  end.

Section Collector.

Variable api : GitHubAPI.
Variable org_name : string.

(** [get_repositories]. The loop leaves at the latest when [page] passes
    100; [pages_left] is the number of pages it may still ask for. *)
Fixpoint get_repositories_from (pages_left : nat) (page : Z)
    (repos : list Repository) : result (list Repository) :=
  match pages_left with
  | O => Return repos
  | S pages_left' =>
      data <- org_repos api page ;;
      match data with
      | [] => Return repos
      | _ =>
          let repos := (repos ++ data)%list in
          let page := page + 1 in
          if page >? 100 then Return repos
          else get_repositories_from pages_left' page repos
      end
  end.

Definition get_repositories : result (list Repository) :=
  get_repositories_from 100 1 [].

(** [get_workflow_runs] *)
Definition get_workflow_runs (repo_name branch : string) (days_back : Z)
    : result (list WorkflowRun) :=
  try_except
    (data <- workflow_runs api repo_name
               (if truthy branch then Some branch else None) days_back ;;
     Return (match data with Some workflow_runs => workflow_runs | None => [] end))
    except_GitHubAPIError
    (Return []).

(** [get_jobs_for_run] *)
Definition get_jobs_for_run (repo_name : string) (run_id : Z)
    : result (list Job) :=
  try_except
    (data <- run_jobs api repo_name run_id ;;
     Return (match data with Some jobs => jobs | None => [] end))
    except_GitHubAPIError
    (Return []).

Variable target_label : option string.
Variable days_back : Z.
Variable status_filter : option string.
Variable repo_filter : option string.

(** The body of [for job in jobs]. A [null] under [labels] reaches
    [' '.join] or [in] as [None], a [TypeError]. *)
Definition process_job (repo : Repository) (run : WorkflowRun) (job : Job)
    (results : list JobRecord) : result (list JobRecord) :=
  let repo_name := repo_name repo in
  let default_branch := repo_default_branch repo in
  let workflow_name := run_name run in
  let run_id := run_id run in
  let job_labels :=
    match job_labels job with
    | Absent => Some []
    | Null => None
    | Present l => Some l
    end in
  let job_status := get_default VStr (job_status job) (VStr "unknown") in
  let runner_label :=
    match job_labels with
    | Some (l :: ls) => join ", " (l :: ls)
    | _ => "unknown"
    end in
  skip <-
    match status_filter with
    | Some f =>
        if truthy f then
          status <- value_lower job_status ;;
          Return (negb (String.eqb (lower f) status))
        else Return false
    | None => Return false
    end ;;
  if (skip : bool) then Return results
  else
    selected <-
      match target_label, job_labels with
      | None, _ => Return true
      | Some t, Some l => Return (mem t l)
      | Some _, None => Raise TypeError
      end ;;
    if (selected : bool) then
      labels <- match job_labels with
                | Some l => Return l
                | None => Raise TypeError
                end ;;
      let runner_type := _categorize_runner labels in
      let cost_category := _get_cost_category labels in
      duration <- _calculate_duration job ;;
      Return (results ++ [
        {| Org := org_name;
           Repo := repo_name;
           Branch := default_branch;
           Workflow_File := get_default VStr (run_path run) (VStr EmptyString);
           Workflow_Name := workflow_name;
           Runner_Labels := runner_label;
           Runner_Type := runner_type;
           Cost_Category := cost_category;
           Job_Name := job_name job;
           Job_Status := job_status;
           Run_Date := get_default VStr (job_started_at job) (VStr EmptyString);
           Completed_Date := get_default VStr (job_completed_at job) (VStr EmptyString);
           Duration := duration;
           Run_ID := run_id;
           Job_ID := get_default VInt (job_id job) (VStr EmptyString);
           Conclusion := get_default VStr (job_conclusion job) (VStr "unknown");
           HTML_URL := get_default VStr (job_html_url job) (VStr EmptyString);
           Repository_Size := get_default VInt (repo_size repo) (VInt 0);
           Repository_Language :=
             get_default VStr (repo_language repo) (VStr "unknown");
           Repository_Visibility :=
             get_default VStr (repo_visibility repo) (VStr "unknown") |} ])%list
    else Return results.

(** The body of [for run in runs]. *)
Definition process_run (repo : Repository) (run : WorkflowRun)
    (results : list JobRecord) : result (list JobRecord) :=
  jobs <- get_jobs_for_run (repo_name repo) (run_id run) ;;
  for_each jobs (process_job repo run) results.

(** The body of [for idx, repo in enumerate(repos, 1)]. *)
Definition process_repo (repo : Repository) (results : list JobRecord)
    : result (list JobRecord) :=
  runs <- get_workflow_runs (repo_name repo) (repo_default_branch repo)
            days_back ;;
  for_each runs (process_run repo) results.

(** The repositories that the loop visits. *)
Definition apply_repo_filter (repos : list Repository) : list Repository :=
  match repo_filter with
  | Some f =>
      if truthy f
      then filter (fun repo => contains (lower f) (lower (repo_name repo))) repos
      else repos
  | None => repos
  end.

(** [analyze_runner_usage] up to [# Group results if requested]. *)
Definition collect : result (list JobRecord) :=
  let results := [] in
  repos <- get_repositories ;;
  let repos := apply_repo_filter repos in
  for_each repos process_repo results.

End Collector.

(** ** Aggregator *)

(** The operations of Python that the summary statistics use and that this
    development does not embed: the reading of an integer literal and the
    arithmetic and formatting of binary floating point. *)
Record Builtins : Type := {
  (** [int(s)], [None] standing for [ValueError] *)
  py_int : string -> option Z;
  (** [int((total / count) // 60)] *)
  mean_floordiv_60 : Z -> Z -> Z;
  (** [int((total / count) % 60)] *)
  mean_mod_60 : Z -> Z -> Z;
  (** [f"{(part / whole * 100):.1f}"] *)
  percent_1f : Z -> Z -> string
}.

(** The dictionary appended to [summary_results] for a group. *)
Record GroupSummary : Type := {
  Group : value;
  Group_Type : string;
  Total_Jobs : Z;
  Successful_Jobs : Z;
  Failed_Jobs : Z;
  Success_Rate : string;
  Average_Duration : string;
  Sample_Repository : value
}.

(** The key under which [_group_results] files a record. *)
Definition group_key (group_by : string) (result : JobRecord) : value :=
  let key := record_get result (title group_by) (VStr "Unknown") in
  if String.eqb group_by "label" then
    record_get result "Runner Labels" (VStr "Unknown")
  else if String.eqb group_by "status" then
    record_get result "Job Status" (VStr "Unknown")
  else if String.eqb group_by "workflow" then
    record_get result "Workflow Name" (VStr "Unknown")
  else if String.eqb group_by "branch" then
    record_get result "Branch" (VStr "Unknown")
  else if String.eqb group_by "runner_type" then
    record_get result "Runner Type" (VStr "Unknown")
  else if String.eqb group_by "cost_category" then
    record_get result "Cost Category" (VStr "Unknown")
  else key.

(** [grouped\[key\].append(result)] on the [defaultdict(list)]: a new key
    goes to the end. *)
Fixpoint grouped_append (grouped : list (value * list JobRecord))
    (key : value) (result : JobRecord) : list (value * list JobRecord) :=
  match grouped with
  | [] => [(key, [result])]
  | (k, group_items) :: grouped' =>
      if value_eqb k key then (k, (group_items ++ [result])%list) :: grouped'
      else (k, group_items) :: grouped_append grouped' key result
  end.

(** The first loop of [_group_results]. *)
Definition group_records (results : list JobRecord) (group_by : string)
    : list (value * list JobRecord) :=
  fold_left
    (fun grouped result =>
       grouped_append grouped (group_key group_by result) result)
    results [].

(** [sum(l)] *)
Definition py_sum (l : list Z) : Z := fold_left Z.add l 0.

(** [len(l)] *)
Definition len {A : Type} (l : list A) : Z := Z.of_nat (List.length l).

(** [s.split(sep)] for a separator of one character. *)
Fixpoint split (sep : ascii) (s : string) : list string :=
  match s with
  | EmptyString => [EmptyString]
  | String c s' =>
      if (c =? sep)%char then EmptyString :: split sep s'
      else
        match split sep s' with
        | part :: parts => String c part :: parts
        | [] => [String c EmptyString]
        end
  end.

Section Aggregator.

Variable py : Builtins.

(** The seconds that the loop over [group_items] appends to [durations]
    for one item, if any. *)
Definition duration_seconds (item : JobRecord) : option Z :=
  match record_get item "Duration" (VStr "00:00") with
  | VStr duration_str =>
      if negb (String.eqb duration_str "unknown") && contains ":" duration_str
      then
        match split ":" duration_str with
        | [minutes; seconds] =>
            match py_int py minutes, py_int py seconds with
            | Some minutes, Some seconds => Some (minutes * 60 + seconds)
            | _, _ => None
            end
        | _ => None
        end
      else None
  | _ => None
  end.

Definition average_duration (group_items : list JobRecord) : string :=
  let durations :=
    flat_map (fun item => match duration_seconds item with
                          | Some d => [d]
                          | None => []
                          end) group_items in
  match durations with
  | [] => "unknown"
  | _ =>
      let avg_minutes := mean_floordiv_60 py (py_sum durations) (len durations) in
      let avg_secs := mean_mod_60 py (py_sum durations) (len durations) in
      format_02d avg_minutes ++ ":" ++ format_02d avg_secs
  end.

(** The body of [for group_key, group_items in grouped.items()]. *)
Definition summarize (group_by : string) (group : value * list JobRecord)
    : GroupSummary :=
  let '(group_key, group_items) := group in
  let total_jobs := len group_items in
  let successful_jobs :=
    py_sum (map (fun _ => 1)
           (filter (fun item =>
                      value_eqb (record_get item "Job Status" VNone)
                                (VStr "completed")) group_items)) in
  let failed_jobs :=
    py_sum (map (fun _ => 1)
           (filter (fun item =>
                      value_eqb (record_get item "Job Status" VNone)
                                (VStr "failure")) group_items)) in
  {| Group := group_key;
     Group_Type := title group_by;
     Total_Jobs := total_jobs;
     Successful_Jobs := successful_jobs;
     Failed_Jobs := failed_jobs;
     Success_Rate :=
       if total_jobs >? 0
       then percent_1f py successful_jobs total_jobs ++ "%"
       else "0%";
     Average_Duration := average_duration group_items;
     Sample_Repository :=
       match group_items with
       | item :: _ => record_get item "Repo" (VStr "Unknown")
       | [] => VStr "Unknown"
       end |}.

(** [_group_results] *)
Definition _group_results (results : list JobRecord) (group_by : string)
    : list GroupSummary :=
  match results with
  | [] => []
  | _ => map (summarize group_by) (group_records results group_by)
  end.

(** What [analyze_runner_usage] returns: the job records, or the group
    summaries that replaced them. *)
Inductive report : Type :=
| Flat (records : list JobRecord)
| Grouped (summaries : list GroupSummary).

(** [# Group results if requested] *)
Definition group_if_requested (results : list JobRecord) (group_by : string)
    : report :=
  if negb (String.eqb group_by "none")
  then Grouped (_group_results results group_by)
  else Flat results.

(** [analyze_runner_usage] *)
Definition analyze_runner_usage (api : GitHubAPI) (org_name : string)
    (target_label : option string) (days_back : Z) (group_by : string)
    (status_filter repo_filter : option string) : result report :=
  results <- collect api org_name target_label days_back status_filter
               repo_filter ;;
  Return (group_if_requested results group_by).

End Aggregator.

(** ** The classifier as the specification words it *)

(** The rule table of the runner type: the substrings looked for, in the
    order they are tried, each with the category it gives. *)
Definition runner_type_rules : list (list string * string) :=
  [(["self-hosted"], "Self-hosted");
   (["ubuntu-latest"; "windows-latest"; "macos-latest"], "GitHub-hosted");
   (["ubuntu"], "Ubuntu");
   (["windows"], "Windows");
   (["macos"], "macOS");
   (["linux"], "Linux")].

(** The category of the first rule one of whose substrings occurs in
    [text], [otherwise] when no rule matches. *)
Fixpoint first_match (rules : list (list string * string)) (otherwise : string)
    (text : string) : string :=
  match rules with
  | [] => otherwise
  | (substrings, category) :: rules' =>
      if existsb (fun sub => contains sub text) substrings then category
      else first_match rules' otherwise text
  end.

(** The categories of the runner type. *)
Definition runner_types : list string :=
  ["Self-hosted"; "GitHub-hosted"; "Ubuntu"; "Windows"; "macOS"; "Linux";
   "Unknown"].

(** No character of [s] is a space. *)
Fixpoint no_space (s : string) : bool :=
  match s with
  | EmptyString => true
  | String c s' => negb (c =? " ")%char && no_space s'
  end.

(** ** Inputs of the duration calculator *)

(** The parse that [_calculate_duration] applies to a timestamp. *)
Definition parse_timestamp (s : string) : result DateTime.datetime :=
  DateTime.fromisoformat (replace "Z" "+00:00" s).

(** A [_parse_iso_datetime] that parses as [_calculate_duration] itself
    does before it calls it. *)
Definition parse_like_fromisoformat (s : string)
    : result (option DateTime.datetime) :=
  d <- parse_timestamp s ;; Return (Some d).

(** A job that has only its name and the given timestamps. *)
Definition job_with_times (started_at completed_at : field string) : Job :=
  {| job_name := "build";
     job_labels := Absent;
     job_status := Absent;
     job_started_at := started_at;
     job_completed_at := completed_at;
     job_id := Absent;
     job_conclusion := Absent;
     job_html_url := Absent |}.

(** ** Reading the groups *)

(** [grouped\[key\]] once the groups are built; a key never filed under
    has no items. *)
Fixpoint group_of (key : value) (grouped : list (value * list JobRecord))
    : list JobRecord :=
  match grouped with
  | [] => []
  | (k, group_items) :: grouped' =>
      if value_eqb k key then group_items else group_of key grouped'
  end.

(** The keys of a job record. *)
Definition JobRecord_keys : list string :=
  ["Org"; "Repo"; "Branch"; "Workflow File"; "Workflow Name";
   "Runner Labels"; "Runner Type"; "Cost Category"; "Job Name"; "Job Status";
   "Run Date"; "Completed Date"; "Duration"; "Run ID"; "Job ID"; "Conclusion";
   "HTML URL"; "Repository Size"; "Repository Language";
   "Repository Visibility"].

(** The field names that [_group_results] tests for by name. *)
Definition named_group_fields : list string :=
  ["label"; "status"; "workflow"; "branch"; "runner_type"; "cost_category"].

(** ** Inputs for the examples *)

(** A non-empty string of decimal digits. *)
Fixpoint digits_value (acc : Z) (s : string) : option Z :=
  match s with
  | EmptyString => None
  | String c s' =>
      match DateTime.digit c, s' with
      | Some d, EmptyString => Some (acc * 10 + d)
      | Some d, _ => digits_value (acc * 10 + d) s'
      | None, _ => None
      end
  end.

(** The builtins on the inputs of the examples: integer literals made of
    an optional sign and decimal digits, the mean and the percentage in
    exact arithmetic, the percentage rounded half to even. *)
Definition exact_builtins : Builtins :=
  {| py_int := fun s =>
       match s with
       | String "-" s' => option_map Z.opp (digits_value 0 s')
       | String "+" s' => digits_value 0 s'
       | _ => digits_value 0 s
       end;
     mean_floordiv_60 := fun total count => total / count / 60;
     mean_mod_60 := fun total count => (total / count) mod 60;
     percent_1f := fun part whole =>
       let q := part * 1000 / whole in
       let r := part * 1000 mod whole in
       let tenths :=
         if 2 * r <? whole then q
         else if whole <? 2 * r then q + 1
         else if Z.even q then q else q + 1 in
       decimal (tenths / 10) ++ "." ++ decimal (tenths mod 10) |}.

(** A job record of organization [acme]. *)
Definition sample_record (repo : string) (labels : list string)
    (status : string) (conclusion : value) : JobRecord :=
  {| Org := "acme";
     Repo := repo;
     Branch := "main";
     Workflow_File := VStr ".github/workflows/ci.yml";
     Workflow_Name := VStr "CI";
     Runner_Labels := join ", " labels;
     Runner_Type := _categorize_runner labels;
     Cost_Category := _get_cost_category labels;
     Job_Name := "build";
     Job_Status := VStr status;
     Run_Date := VStr "2024-01-01T10:00:00Z";
     Completed_Date := VNone;
     Duration := "unknown";
     Run_ID := 7;
     Job_ID := VInt 70;
     Conclusion := conclusion;
     HTML_URL := VStr EmptyString;
     Repository_Size := VInt 0;
     Repository_Language := VNone;
     Repository_Visibility := VStr "private" |}.

(** The four records of scenario 1. *)
Definition scenario_1 : list JobRecord :=
  [sample_record "web" ["ubuntu-latest"] "completed" (VStr "success");
   sample_record "web" ["ubuntu-latest"] "completed" (VStr "success");
   sample_record "web" ["ubuntu-latest"] "completed" (VStr "failure");
   sample_record "ml" ["self-hosted"; "gpu"] "failure" (VStr "failure")].

(** ** Inputs for the collector examples *)

Definition repo_web : Repository :=
  {| repo_name := "web"; repo_default_branch := "main";
     repo_size := Present 120; repo_language := Null;
     repo_visibility := Present "private" |}.

Definition repo_ml : Repository :=
  {| repo_name := "ml"; repo_default_branch := "main";
     repo_size := Present 4; repo_language := Present "Python";
     repo_visibility := Absent |}.

Definition run_ci (id : Z) : WorkflowRun :=
  {| run_name := VStr "CI"; run_id := id;
     run_path := Present ".github/workflows/ci.yml" |}.

(** A job in progress that lists no labels. *)
Definition job_without_labels : Job :=
  {| job_name := "build";
     job_labels := Present [];
     job_status := Present "in_progress";
     job_started_at := Present "2024-01-01T10:00:00Z";
     job_completed_at := Null;
     job_id := Present 70;
     job_conclusion := Null;
     job_html_url := Absent |}.

(** An organization of two repositories whose first repository fails to
    list its runs and whose second has two runs, the first of which fails
    to list its jobs. *)
Definition api_partial_failures : GitHubAPI :=
  {| org_repos := fun page =>
       if page =? 1 then Return [repo_web; repo_ml] else Return [];
     workflow_runs := fun repo _ _ =>
       if String.eqb repo "web" then Raise GitHubAPIError
       else Return (Some [run_ci 1; run_ci 2]);
     run_jobs := fun _ run_id =>
       if run_id =? 1 then Raise GitHubAPIError
       else Return (Some [job_without_labels]) |}.

(** An organization whose second page of repositories fails. *)
Definition api_listing_failure : GitHubAPI :=
  {| org_repos := fun page =>
       if page =? 1 then Return [repo_web; repo_ml]
       else Raise GitHubAPIError;
     workflow_runs := fun _ _ _ => Return (Some []);
     run_jobs := fun _ _ => Return (Some []) |}.

(** The record that the collector makes of [job_without_labels] in run 2
    of [repo_ml]. *)
Definition sample_record_of_job_without_labels : JobRecord :=
  {| Org := "acme";
     Repo := "ml";
     Branch := "main";
     Workflow_File := VStr ".github/workflows/ci.yml";
     Workflow_Name := VStr "CI";
     Runner_Labels := "unknown";
     Runner_Type := "Unknown";
     Cost_Category := "Standard";
     Job_Name := "build";
     Job_Status := VStr "in_progress";
     Run_Date := VStr "2024-01-01T10:00:00Z";
     Completed_Date := VNone;
     Duration := "unknown";
     Run_ID := 2;
     Job_ID := VInt 70;
     Conclusion := VNone;
     HTML_URL := VStr EmptyString;
     Repository_Size := VInt 4;
     Repository_Language := VStr "Python";
     Repository_Visibility := VStr "unknown" |}.

(** ** The cost category as a rule table *)

(** The rule table of the cost category, in the order of the tests of
    [_get_cost_category]. *)
Definition cost_category_rules : list (list string * string) :=
  [(["self-hosted"], "Self-hosted (Custom Cost)");
   (["large"; "xl"; "xxl"; "4-core"; "8-core"; "16-core"], "Large Instance");
   (["ubuntu-latest"; "windows-latest"; "macos-latest"],
    "Standard GitHub-hosted")].

(** The cost categories. *)
Definition cost_categories : list string :=
  ["Self-hosted (Custom Cost)"; "Large Instance"; "Standard GitHub-hosted";
   "Standard"].

(** ** Report generator *)

(** [d.get(key, default)] on a dictionary of strings. *)
Fixpoint dict_get (key : string) (d : list (string * string))
    (default : string) : string :=
  match d with
  | [] => default
  | (k, v) :: d' => if String.eqb k key then v else dict_get key d' default
  end.

(** [_get_status_class] of class [ReportGenerator]. *)
Definition _get_status_class (status : string) : string :=
  let status_map :=
    [("completed", "badge-success");
     ("success", "badge-success");
     ("failure", "badge-failure");
     ("cancelled", "badge-failure");
     ("in_progress", "badge-in-progress");
     ("queued", "badge-in-progress")] in
  dict_get (lower status) status_map "badge-default".

(** ** Listings and keys in order *)

(** The pages [page], [page + 1], ... ([count] of them) of a listing, one
    after the other. *)
Fixpoint pages_concat (data : Z -> list Repository) (page : Z) (count : nat)
    : list Repository :=
  match count with
  | O => []
  | S count' => (data page ++ pages_concat data (page + 1) count')%list
  end.

(** The values of a list, each at its first occurrence. *)
Fixpoint distinct (l : list value) : list value :=
  match l with
  | [] => []
  | x :: l' => x :: filter (fun y => negb (value_eqb x y)) (distinct l')
  end.

(** The job statuses that [_group_results] counts. *)
Definition is_status (status : string) (item : JobRecord) : bool :=
  value_eqb (record_get item "Job Status" VNone) (VStr status).

(** ** Jobs with a duration *)

(** Both timestamps of a job are there and parse, and both carry an
    offset or neither does. *)
Definition has_interval (job : Job) : Prop :=
  exists started_at completed_at start_time end_time delta,
    get (job_started_at job) = Some started_at
    /\ get (job_completed_at job) = Some completed_at
    /\ truthy started_at = true
    /\ truthy completed_at = true
    /\ parse_timestamp started_at = Return start_time
    /\ parse_timestamp completed_at = Return end_time
    /\ DateTime.sub end_time start_time = Return delta.

(** A finished job with its two timestamps. *)
Definition job_finished : Job :=
  {| job_name := "test";
     job_labels := Present ["ubuntu-latest"];
     job_status := Present "completed";
     job_started_at := Present "2024-01-01T10:00:00Z";
     job_completed_at := Present "2024-01-01T10:02:38Z";
     job_id := Present 71;
     job_conclusion := Present "success";
     job_html_url := Absent |}.

(** An organization of one repository with one run of two jobs, the
    second of them finished. *)
Definition api_finished_job : GitHubAPI :=
  {| org_repos := fun page =>
       if page =? 1 then Return [repo_web] else Return [];
     workflow_runs := fun _ _ _ => Return (Some [run_ci 1]);
     run_jobs := fun _ _ => Return (Some [job_without_labels; job_finished]) |}.

(** A job in progress on a self-hosted runner. *)
Definition job_running : Job :=
  {| job_name := "train";
     job_labels := Present ["self-hosted"; "gpu"];
     job_status := Present "in_progress";
     job_started_at := Present "2024-01-01T10:00:00Z";
     job_completed_at := Null;
     job_id := Present 72;
     job_conclusion := Null;
     job_html_url := Absent |}.

(** An organization of one repository with one run of two jobs in
    progress. *)
Definition api_running : GitHubAPI :=
  {| org_repos := fun page =>
       if page =? 1 then Return [repo_ml] else Return [];
     workflow_runs := fun _ _ _ => Return (Some [run_ci 1]);
     run_jobs := fun _ _ => Return (Some [job_without_labels; job_running]) |}.

(** ** Statistics of the step summary *)

(** The keys of the dictionary of a group with their values, in the order
    of the dictionary display of [_group_results]. *)
Definition summary_items (g : GroupSummary) : list (string * value) :=
  [("Group", Group g);
   ("Group Type", VStr (Group_Type g));
   ("Total Jobs", VInt (Total_Jobs g));
   ("Successful Jobs", VInt (Successful_Jobs g));
   ("Failed Jobs", VInt (Failed_Jobs g));
   ("Success Rate", VStr (Success_Rate g));
   ("Average Duration", VStr (Average_Duration g));
   ("Sample Repository", Sample_Repository g)].

(** The list of dictionaries that a report is. *)
Definition report_rows (data : report) : list (list (string * value)) :=
  match data with
  | Flat records => map items records
  | Grouped summaries => map summary_items summaries
  end.

(** The outcome of code whose only exception is the [KeyError] of a
    subscript. *)
Inductive keyed (A : Type) : Type :=
| Found (a : A)
| KeyError (key : string).

Arguments Found {A} a.
Arguments KeyError {A} key.

(** [\[item\[key\] for item in data\]], as far as the generator gets. *)
Fixpoint column (key : string) (data : list (list (string * value)))
    : keyed (list value) :=
  match data with
  | [] => Found []
  | item :: data' =>
      match lookup key item with
      | None => KeyError key
      | Some v =>
          match column key data' with
          | Found vs => Found (v :: vs)
          | KeyError k => KeyError k
          end
      end
  end.

(** [counter\[x\] += 1]: a new key goes to the end. *)
Fixpoint counter_add (counter : list (value * Z)) (x : value)
    : list (value * Z) :=
  match counter with
  | [] => [(x, 1)]
  | (k, n) :: counter' =>
      if value_eqb k x then (k, n + 1) :: counter'
      else (k, n) :: counter_add counter' x
  end.

(** [Counter(l)] *)
Definition Counter (l : list value) : list (value * Z) :=
  fold_left counter_add l [].

(** [counter.get(key, default)] *)
Fixpoint counter_get (counter : list (value * Z)) (key : value) (default : Z)
    : Z :=
  match counter with
  | [] => default
  | (k, n) :: counter' =>
      if value_eqb k key then n else counter_get counter' key default
  end.

(** What [generate_github_summary] computes from non-empty data before it
    writes the text. *)
Record SummaryStatistics : Type := {
  total_jobs : Z;
  unique_repos : Z;
  unique_workflows : Z;
  repo_counts : list (value * Z);
  status_counts : list (value * Z);
  label_counts : list (value * Z)
}.

(** The statistics of [generate_github_summary], in the order in which it
    reads the columns. *)
Definition github_summary_statistics (data : list (list (string * value)))
    : keyed SummaryStatistics :=
  let total_jobs := len data in
  match column "Repo" data with
  | KeyError k => KeyError k
  | Found repos =>
      let unique_repos := len (distinct repos) in
      match column "Workflow File" data with
      | KeyError k => KeyError k
      | Found workflows =>
          let unique_workflows := len (distinct workflows) in
          match column "Repo" data with
          | KeyError k => KeyError k
          | Found repos' =>
              let repo_counts := Counter repos' in
              match column "Job Status" data with
              | KeyError k => KeyError k
              | Found statuses =>
                  let status_counts := Counter statuses in
                  match column "Runner Labels" data with
                  | KeyError k => KeyError k
                  | Found labels =>
                      let label_counts := Counter labels in
                      Found {| total_jobs := total_jobs;
                               unique_repos := unique_repos;
                               unique_workflows := unique_workflows;
                               repo_counts := repo_counts;
                               status_counts := status_counts;
                               label_counts := label_counts |}
                  end
              end
          end
      end
  end.

(** * Properties *)

(** ** Strings *)

Lemma lower_append (a b : string) : lower (a ++ b) = lower a ++ lower b.
Proof.
  induction a as [|c a IH]; simpl; [reflexivity | now rewrite IH].
Qed.

Lemma to_lower_idempotent (c : ascii) : to_lower (to_lower c) = to_lower c.
Proof.
  destruct c as [[] [] [] [] [] [] [] []]; reflexivity.
Qed.

Lemma lower_idempotent (s : string) : lower (lower s) = lower s.
Proof.
  induction s as [|c s IH]; simpl; [reflexivity|].
  now rewrite to_lower_idempotent, IH.
Qed.

Lemma lower_join (sep : string) (l : list string) :
  lower (join sep l) = join (lower sep) (map lower l).
Proof.
  unfold join.
  induction l as [|x [|y l] IH]; simpl in *; try reflexivity.
  now rewrite !lower_append, IH.
Qed.

Lemma prefix_cons (c d : ascii) (n s : string) :
  String.prefix (String c n) (String d s) = (c =? d)%char && String.prefix n s.
Proof.
  simpl. destruct (ascii_dec c d) as [->|Hne].
  - now rewrite Ascii.eqb_refl.
  - apply Ascii.eqb_neq in Hne. now rewrite Hne.
Qed.

(** A word without a space that starts a text starts its first word. *)
Lemma prefix_before_space (n a b : string) :
  no_space n = true ->
  String.prefix n (a ++ String " " b) = String.prefix n a.
Proof.
  revert a. induction n as [|c n IH]; intros a Hn.
  - now destruct a.
  - simpl in Hn. apply andb_true_iff in Hn as [Hc Hn].
    destruct a as [|d a].
    + cbn [append]. rewrite prefix_cons.
      apply negb_true_iff in Hc. now rewrite Hc.
    + cbn [append]. rewrite !prefix_cons. now rewrite IH.
Qed.

Lemma contains_empty (n : string) :
  n <> EmptyString -> contains n EmptyString = false.
Proof.
  destruct n; [congruence | reflexivity].
Qed.

(** A word without a space occurs in [a b] exactly when it occurs in [a] or
    in [b]. *)
Lemma contains_across_space (n a b : string) :
  no_space n = true -> n <> EmptyString ->
  contains n (a ++ String " " b) = contains n a || contains n b.
Proof.
  intros Hn Hne. induction a as [|d a IH].
  - cbn [append]. rewrite contains_empty by assumption.
    cbn [contains]. change (String " " b) with (EmptyString ++ String " " b).
    rewrite prefix_before_space by assumption.
    destruct n; [congruence | reflexivity].
  - cbn [append contains]. rewrite IH.
    change (String d (a ++ String " " b)) with (String d a ++ String " " b).
    rewrite prefix_before_space by assumption.
    now rewrite orb_assoc.
Qed.

(** A word without a space occurs in the joined labels exactly when it
    occurs in one of them. *)
Lemma contains_join_space (n : string) (l : list string) :
  no_space n = true -> n <> EmptyString ->
  contains n (join " " l) = existsb (contains n) l.
Proof.
  intros Hn Hne. unfold join.
  induction l as [|x [|y l] IH].
  - now apply contains_empty.
  - simpl. now rewrite orb_false_r.
  - change (String.concat " " (x :: y :: l))
      with (x ++ String " " (String.concat " " (y :: l))).
    rewrite contains_across_space by assumption.
    now rewrite IH.
Qed.

Lemma existsb_permutation {A : Type} (f : A -> bool) (l l' : list A) :
  Permutation l l' -> existsb f l = existsb f l'.
Proof.
  induction 1; simpl; try congruence.
  - now rewrite !orb_assoc, (orb_comm (f y)).
Qed.

(** ** Record classifier *)

Lemma labels_contain (n : string) (labels : list string) :
  no_space n = true -> n <> EmptyString ->
  contains n (lower (join " " labels))
  = existsb (fun label => contains n (lower label)) labels.
Proof.
  intros Hn Hne. rewrite lower_join.
  change (lower " ") with " ".
  rewrite contains_join_space by assumption.
  induction labels as [|x labels IH]; simpl; [reflexivity | now rewrite IH].
Qed.

Lemma labels_in_any_order (n : string) (labels labels' : list string) :
  no_space n = true -> n <> EmptyString ->
  Permutation labels labels' ->
  contains n (lower (join " " labels)) = contains n (lower (join " " labels')).
Proof.
  intros Hn Hne Hp. rewrite !labels_contain by assumption.
  now apply existsb_permutation.
Qed.

Lemma categorize_runner_lowered (labels : list string) :
  _categorize_runner (map lower labels) = _categorize_runner labels.
Proof.
  unfold _categorize_runner.
  replace (lower (join " " (map lower labels))) with (lower (join " " labels));
    [reflexivity|].
  rewrite !lower_join, map_map.
  f_equal. apply map_ext. intros s. now rewrite lower_idempotent.
Qed.

(** C5. The runner type is decided on the lowered labels joined by single
    spaces, and it is the category of the first rule, in the order
    self-hosted, the three [-latest] images, ubuntu, windows, macos, linux,
    one of whose substrings occurs in that text, [Unknown] when there is
    none; the letter case of the labels does not matter. *)
Theorem categorize_runner_first_match (labels : list string) :
  _categorize_runner labels
  = first_match runner_type_rules "Unknown" (lower (join " " labels))
  /\ _categorize_runner (map lower labels) = _categorize_runner labels.
Proof.
  split; [|apply categorize_runner_lowered].
  unfold _categorize_runner, runner_type_rules.
  cbn [first_match existsb].
  rewrite !orb_false_r.
  reflexivity.
Qed.

(** C6. The classifier gives one of its seven categories for every list of
    labels, [Unknown] for the empty list, and the same category for any
    reordering of the list. *)
Theorem categorize_runner_order_independent (labels labels' : list string)
    (Hperm : Permutation labels labels') :
  _categorize_runner labels = _categorize_runner labels'
  /\ In (_categorize_runner labels) runner_types
  /\ _categorize_runner [] = "Unknown".
Proof.
  split; [|split; [|reflexivity]].
  - unfold _categorize_runner. cbn [existsb].
    rewrite (labels_in_any_order "self-hosted" labels labels'),
      (labels_in_any_order "ubuntu-latest" labels labels'),
      (labels_in_any_order "windows-latest" labels labels'),
      (labels_in_any_order "macos-latest" labels labels'),
      (labels_in_any_order "ubuntu" labels labels'),
      (labels_in_any_order "windows" labels labels'),
      (labels_in_any_order "macos" labels labels'),
      (labels_in_any_order "linux" labels labels')
      by (reflexivity || discriminate || assumption).
    reflexivity.
  - unfold _categorize_runner, runner_types.
    repeat match goal with
           | |- context [if ?b then _ else _] => destruct b
           end; simpl; tauto.
Qed.

Lemma categorize_runner_order_independent_witness :
  Permutation ["linux"; "self-hosted"; "x64"] ["x64"; "linux"; "self-hosted"]
  /\ _categorize_runner ["linux"; "self-hosted"; "x64"]
     = _categorize_runner ["x64"; "linux"; "self-hosted"].
Proof.
  assert (Hp : Permutation ["linux"; "self-hosted"; "x64"]
                 ["x64"; "linux"; "self-hosted"]).
  { apply Permutation_sym.
    apply (Permutation_cons_app ["linux"; "self-hosted"] [] "x64").
    rewrite app_nil_r. apply Permutation_refl. }
  split; [exact Hp|].
  exact (proj1 (categorize_runner_order_independent _ _ Hp)).
Defined.

(** ** Duration calculator *)

(** The calculator never gives a formatted duration: it returns
    ["unknown"] or it raises [AttributeError]. *)
Lemma calculate_duration_unknown_or_raises (job : Job) :
  _calculate_duration job = Return "unknown"
  \/ _calculate_duration job = Raise AttributeError.
Proof.
  unfold _calculate_duration, _calculate_duration_with.
  destruct (both_truthy _ _) as [[started_at completed_at]|]; [|now left].
  destruct (DateTime.fromisoformat (replace "Z" "+00:00" started_at))
    as [start_time|e] eqn:Hs; cbn [bind try_except].
  - destruct (DateTime.fromisoformat (replace "Z" "+00:00" completed_at))
      as [end_time|e] eqn:Hc; cbn [bind try_except].
    + destruct (DateTime.sub end_time start_time) as [d|e] eqn:Hd;
        cbn [bind try_except getattr]; [now right|].
      unfold DateTime.sub in Hd.
      destruct (DateTime.utcoffset end_time), (DateTime.utcoffset start_time);
        try discriminate; injection Hd as <-; now left.
    + unfold DateTime.fromisoformat in Hc.
      assert (e = ValueError) as ->; [|now left].
      repeat match type of Hc with
             | match ?x with _ => _ end = _ => destruct x
             | (let '(_, _) := ?x in _) = _ => destruct x
             | (if ?x then _ else _) = _ => destruct x
             end; congruence.
  - unfold DateTime.fromisoformat in Hs.
    assert (e = ValueError) as ->; [|now left].
    repeat match type of Hs with
           | match ?x with _ => _ end = _ => destruct x
           | (let '(_, _) := ?x in _) = _ => destruct x
           | (if ?x then _ else _) = _ => destruct x
           end; congruence.
Qed.

(** C1. The calculator does raise: for a job with two well-formed
    timestamps, here one that completed before it started, the lookup of
    [_parse_iso_datetime] raises [AttributeError], which the handler for
    [ValueError] and [TypeError] lets through, and ["unknown"] is not
    returned. *)
Theorem calculate_duration_raises_for_reversed_times :
  let job := job_with_times (Present "2024-01-01T10:02:38Z")
                            (Present "2024-01-01T10:00:00Z") in
  _calculate_duration job = Raise AttributeError
  /\ _calculate_duration job <> Return "unknown".
Proof.
  cbv zeta. split.
  - vm_compute. reflexivity.
  - vm_compute. discriminate.
Qed.

(** C2. At the timestamps of scenario 3 the calculator raises
    [AttributeError] where the claim has ["02:38"], which is what the
    instructions after the failing lookup would format. *)
Theorem calculate_duration_scenario_3 :
  let job := job_with_times (Present "2024-01-01T10:00:00Z")
                            (Present "2024-01-01T10:02:38Z") in
  _calculate_duration job = Raise AttributeError
  /\ _calculate_duration_with (Some parse_like_fromisoformat) job
     = Return "02:38".
Proof.
  cbv zeta. split; vm_compute; reflexivity.
Qed.

(** ** Flat mode *)

(** C3. With [group_by] equal to ["none"] the aggregation step returns the
    records it was given, and [analyze_runner_usage] returns what the
    collector gathered. *)
Theorem flat_mode_identity (py : Builtins) (results : list JobRecord)
    (api : GitHubAPI) (org_name : string) (target_label : option string)
    (days_back : Z) (status_filter repo_filter : option string) :
  group_if_requested py results "none" = Flat results
  /\ analyze_runner_usage py api org_name target_label days_back "none"
       status_filter repo_filter
     = (results <- collect api org_name target_label days_back status_filter
                     repo_filter ;;
        Return (Flat results)).
Proof.
  split; reflexivity.
Qed.

(** ** Aggregator *)

Lemma value_eqb_eq (a b : value) : value_eqb a b = true <-> a = b.
Proof.
  destruct a, b; simpl; split; intros H; try congruence.
  - apply Z.eqb_eq in H. now subst.
  - injection H as ->. apply Z.eqb_refl.
  - apply String.eqb_eq in H. now subst.
  - injection H as ->. apply String.eqb_refl.
Qed.

Lemma value_eqb_refl (a : value) : value_eqb a a = true.
Proof. now apply value_eqb_eq. Qed.

Lemma value_eqb_neq (a b : value) : value_eqb a b = false <-> a <> b.
Proof.
  rewrite <- value_eqb_eq. destruct (value_eqb a b); split; congruence.
Qed.

Lemma fold_left_add (l : list Z) (a : Z) :
  fold_left Z.add l a = a + fold_left Z.add l 0.
Proof.
  revert a. induction l as [|x l IH]; intros a; simpl; [lia|].
  rewrite (IH (a + x)), (IH x). lia.
Qed.

Lemma py_sum_cons (x : Z) (l : list Z) : py_sum (x :: l) = x + py_sum l.
Proof.
  unfold py_sum. simpl. now rewrite fold_left_add.
Qed.

Lemma py_sum_app (l l' : list Z) : py_sum (l ++ l') = py_sum l + py_sum l'.
Proof.
  induction l as [|x l IH]; simpl; [reflexivity|].
  rewrite !py_sum_cons, IH. lia.
Qed.

Lemma py_sum_ones {A : Type} (l : list A) :
  py_sum (map (fun _ => 1) l) = len l.
Proof.
  unfold len. induction l as [|x l IH]; [reflexivity|].
  cbn [map List.length]. rewrite py_sum_cons, IH. lia.
Qed.

Lemma len_app {A : Type} (l l' : list A) : len (l ++ l') = len l + len l'.
Proof.
  unfold len. rewrite length_app. lia.
Qed.

Lemma filter_disjoint_length {A : Type} (f g : A -> bool) (l : list A) :
  (forall x, f x = true -> g x = false) ->
  len (filter f l) + len (filter g l) <= len l.
Proof.
  intros Hfg. unfold len.
  enough (List.length (filter f l) + List.length (filter g l)
          <= List.length l)%nat by lia.
  induction l as [|x l IH]; cbn [filter List.length]; [lia|].
  destruct (f x) eqn:Hf.
  - rewrite (Hfg x Hf). cbn [List.length]. lia.
  - destruct (g x); cbn [List.length]; lia.
Qed.

Section Grouping.

Variable group_by : string.

Lemma group_records_snoc (results : list JobRecord) (result : JobRecord) :
  group_records (results ++ [result]) group_by
  = grouped_append (group_records results group_by)
      (group_key group_by result) result.
Proof.
  unfold group_records. now rewrite fold_left_app.
Qed.

Lemma group_of_append (grouped : list (value * list JobRecord))
    (key key' : value) (result : JobRecord) :
  group_of key' (grouped_append grouped key result)
  = if value_eqb key key' then (group_of key' grouped ++ [result])%list
    else group_of key' grouped.
Proof.
  induction grouped as [|[k group_items] grouped IH]; simpl.
  - reflexivity.
  - destruct (value_eqb k key) eqn:Hk; simpl.
    + apply value_eqb_eq in Hk. subst k.
      now destruct (value_eqb key key').
    + rewrite IH. destruct (value_eqb k key') eqn:Hk'; [|reflexivity].
      apply value_eqb_eq in Hk'. subst k.
      destruct (value_eqb key key') eqn:Hkk; [|reflexivity].
      apply value_eqb_eq in Hkk. subst key'.
      now rewrite value_eqb_refl in Hk.
Qed.

Lemma keys_append (grouped : list (value * list JobRecord))
    (key k : value) (result : JobRecord) :
  In k (map fst (grouped_append grouped key result))
  <-> k = key \/ In k (map fst grouped).
Proof.
  induction grouped as [|[k0 group_items] grouped IH]; simpl.
  - intuition congruence.
  - destruct (value_eqb k0 key) eqn:Hk; simpl.
    + apply value_eqb_eq in Hk. subst k0. intuition congruence.
    + rewrite IH. intuition congruence.
Qed.

Lemma keys_append_NoDup (grouped : list (value * list JobRecord))
    (key : value) (result : JobRecord) :
  NoDup (map fst grouped) ->
  NoDup (map fst (grouped_append grouped key result)).
Proof.
  induction grouped as [|[k0 group_items] grouped IH]; simpl; intros Hnd.
  - constructor; [tauto | constructor].
  - inversion Hnd as [|? ? Hnotin Hnd']; subst.
    destruct (value_eqb k0 key) eqn:Hk; simpl.
    + now constructor.
    + constructor; [|now apply IH].
      rewrite keys_append. apply value_eqb_neq in Hk. tauto.
Qed.

Lemma sizes_append (grouped : list (value * list JobRecord))
    (key : value) (result : JobRecord) :
  py_sum (map (fun group => len (snd group))
            (grouped_append grouped key result))
  = py_sum (map (fun group => len (snd group)) grouped) + 1.
Proof.
  induction grouped as [|[k0 group_items] grouped IH]; simpl.
  - reflexivity.
  - destruct (value_eqb k0 key); cbn [map snd].
    + rewrite !py_sum_cons, len_app. cbn. lia.
    + rewrite !py_sum_cons, IH. lia.
Qed.

(** The keys under which records were filed are distinct. *)
Lemma group_records_NoDup (results : list JobRecord) :
  NoDup (map fst (group_records results group_by)).
Proof.
  induction results as [|result results IH] using rev_ind.
  - constructor.
  - rewrite group_records_snoc. now apply keys_append_NoDup.
Qed.

(** They are the keys of the records. *)
Lemma group_records_keys (results : list JobRecord) (k : value) :
  In k (map fst (group_records results group_by))
  <-> exists result, In result results /\ group_key group_by result = k.
Proof.
  induction results as [|result results IH] using rev_ind.
  - simpl. split; [tauto | intros (? & [] & _)].
  - rewrite group_records_snoc, keys_append, IH. split.
    + intros [-> | (r & Hr & Hk)].
      * exists result. split; [apply in_or_app; simpl; tauto | reflexivity].
      * exists r. split; [apply in_or_app; tauto | assumption].
    + intros (r & Hr & Hk). apply in_app_or in Hr as [Hr | [-> | []]].
      * right. now exists r.
      * now left.
Qed.

(** Under a key are the records of that key, in their order. *)
Lemma group_records_group_of (results : list JobRecord) (key : value) :
  group_of key (group_records results group_by)
  = filter (fun result => value_eqb (group_key group_by result) key) results.
Proof.
  induction results as [|result results IH] using rev_ind.
  - reflexivity.
  - rewrite group_records_snoc, group_of_append, filter_app, IH. simpl.
    destruct (value_eqb (group_key group_by result) key);
      [reflexivity | now rewrite app_nil_r].
Qed.

Lemma group_records_sizes (results : list JobRecord) :
  py_sum (map (fun group => len (snd group)) (group_records results group_by))
  = len results.
Proof.
  induction results as [|result results IH] using rev_ind.
  - reflexivity.
  - rewrite group_records_snoc, sizes_append, IH, len_app. reflexivity.
Qed.

End Grouping.

Lemma group_of_In (grouped : list (value * list JobRecord)) (key : value)
    (group_items : list JobRecord) :
  NoDup (map fst grouped) -> In (key, group_items) grouped ->
  group_of key grouped = group_items.
Proof.
  induction grouped as [|[k0 items0] grouped IH]; simpl; intros Hnd Hin.
  - contradiction.
  - inversion Hnd as [|? ? Hnotin Hnd']; subst.
    destruct Hin as [Heq | Hin].
    + injection Heq as -> ->. now rewrite value_eqb_refl.
    + destruct (value_eqb k0 key) eqn:Hk; [|now apply IH].
      apply value_eqb_eq in Hk. subst k0. exfalso. apply Hnotin.
      change key with (fst (key, group_items)). now apply in_map.
Qed.

Lemma NoDup_map_In_eq {A B : Type} (f : A -> B) (l : list A) (a b : A) :
  NoDup (map f l) -> In a l -> In b l -> f a = f b -> a = b.
Proof.
  induction l as [|x l IH]; simpl; intros Hnd Ha Hb Hf; [contradiction|].
  inversion Hnd as [|? ? Hnotin Hnd']; subst.
  destruct Ha as [-> | Ha], Hb as [-> | Hb]; auto.
  - exfalso. apply Hnotin. rewrite Hf. now apply in_map.
  - exfalso. apply Hnotin. rewrite <- Hf. now apply in_map.
Qed.

(** [_group_results] summarizes the groups, whether or not there are
    records. *)
Lemma group_results_rows (py : Builtins) (results : list JobRecord)
    (group_by : string) :
  _group_results py results group_by
  = map (summarize py group_by) (group_records results group_by).
Proof.
  now destruct results.
Qed.

Lemma summarize_Group (py : Builtins) (group_by : string)
    (group : value * list JobRecord) :
  Group (summarize py group_by group) = fst group.
Proof. now destruct group. Qed.

Lemma summarize_Total_Jobs (py : Builtins) (group_by : string)
    (group : value * list JobRecord) :
  Total_Jobs (summarize py group_by group) = len (snd group).
Proof. now destruct group. Qed.

(** C4. The rows of [_group_results] partition the records by their key:
    every record has exactly one row of its key, the [Total Jobs] of a row
    counts the records of the row's key and is positive, and the [Total
    Jobs] of all rows add up to the number of records. *)
Theorem group_results_partition (py : Builtins) (results : list JobRecord)
    (group_by : string) :
  let rows := _group_results py results group_by in
  (forall record, In record results ->
     exists! row, In row rows /\ Group row = group_key group_by record)
  /\ (forall row, In row rows ->
        Total_Jobs row
        = len (filter (fun record =>
                         value_eqb (group_key group_by record) (Group row))
                 results)
        /\ 0 < Total_Jobs row)
  /\ py_sum (map Total_Jobs rows) = len results.
Proof.
  cbv zeta. rewrite group_results_rows.
  pose proof (group_records_NoDup group_by results) as Hnd.
  split; [|split].
  - intros record Hin.
    assert (Hk : In (group_key group_by record)
                   (map fst (group_records results group_by))).
    { apply group_records_keys. now exists record. }
    apply in_map_iff in Hk as (group & Hfst & Hgroup).
    exists (summarize py group_by group). split.
    + split; [now apply in_map | now rewrite summarize_Group].
    + intros row' [Hrow' Hkey'].
      apply in_map_iff in Hrow' as (group' & <- & Hgroup').
      rewrite summarize_Group in Hkey'.
      f_equal. apply (NoDup_map_In_eq fst _ _ _ Hnd Hgroup Hgroup').
      congruence.
  - intros row Hrow.
    apply in_map_iff in Hrow as ([key group_items] & <- & Hgroup).
    rewrite summarize_Group, summarize_Total_Jobs. cbn [fst snd].
    rewrite <- (group_records_group_of group_by results key).
    rewrite (group_of_In _ _ _ Hnd Hgroup).
    split; [reflexivity|].
    assert (Hk : In key (map fst (group_records results group_by))).
    { change key with (fst (key, group_items)). now apply in_map. }
    apply group_records_keys in Hk as (record & Hin & Hkey).
    assert (Hmem : In record (group_of key (group_records results group_by))).
    { rewrite group_records_group_of. apply filter_In.
      split; [assumption | now apply value_eqb_eq]. }
    rewrite (group_of_In _ _ _ Hnd Hgroup) in Hmem.
    unfold len. destruct group_items; [contradiction | cbn; lia].
  - rewrite map_map.
    rewrite <- (group_records_sizes group_by results).
    f_equal. apply map_ext. intros group. apply summarize_Total_Jobs.
Qed.

Lemma group_results_partition_witness :
  py_sum (map Total_Jobs (_group_results exact_builtins scenario_1 "status"))
  = len scenario_1
  /\ map (fun row => (Group row, Total_Jobs row, Successful_Jobs row,
                      Success_Rate row))
       (_group_results exact_builtins scenario_1 "status")
     = [(VStr "completed", 3, 3, "100.0%"); (VStr "failure", 1, 0, "0.0%")].
Proof.
  split.
  - exact (proj2 (proj2
             (group_results_partition exact_builtins scenario_1 "status"))).
  - vm_compute. reflexivity.
Defined.

(** C10. In every row of [_group_results] the three counts are not
    negative and the successful and the failed jobs together are at most
    the total. *)
Theorem group_counts_bounded (py : Builtins) (results : list JobRecord)
    (group_by : string) :
  Forall (fun row =>
            0 <= Total_Jobs row
            /\ 0 <= Successful_Jobs row
            /\ 0 <= Failed_Jobs row
            /\ Successful_Jobs row + Failed_Jobs row <= Total_Jobs row)
    (_group_results py results group_by).
Proof.
  rewrite group_results_rows. apply Forall_map, Forall_forall.
  intros [key group_items] _. cbn [summarize Total_Jobs Successful_Jobs
                                   Failed_Jobs].
  rewrite !py_sum_ones.
  pose proof (filter_disjoint_length
                (fun item => value_eqb (record_get item "Job Status" VNone)
                               (VStr "completed"))
                (fun item => value_eqb (record_get item "Job Status" VNone)
                               (VStr "failure"))
                group_items) as Hle.
  unfold len in *. split; [lia|]. split; [lia|]. split; [lia|].
  apply Hle. intros item Hc. apply value_eqb_eq in Hc. now rewrite Hc.
Qed.

Lemma lookup_absent (key : string) (l : list (string * value)) :
  ~ In key (map fst l) -> lookup key l = None.
Proof.
  induction l as [|[k v] l IH]; simpl; intros Hnot; [reflexivity|].
  destruct (String.eqb_spec k key) as [->|Hne]; [tauto|].
  apply IH. tauto.
Qed.

Lemma eqb_not_In (x y : string) (l : list string) :
  ~ In x l -> In y l -> String.eqb x y = false.
Proof.
  intros Hnot Hin. apply String.eqb_neq. congruence.
Qed.

(** A field that is not tested for by name and whose title-cased form is
    no key of the records gives the default key. *)
Lemma group_key_default (group_by : string) (result : JobRecord) :
  ~ In group_by named_group_fields ->
  ~ In (title group_by) JobRecord_keys ->
  group_key group_by result = VStr "Unknown".
Proof.
  intros Hnamed Hkey. unfold group_key.
  rewrite !(eqb_not_In group_by _ named_group_fields Hnamed)
    by (simpl; tauto).
  unfold record_get. now rewrite lookup_absent.
Qed.

(** Records of one key are added to the one group, in their order. *)
Lemma fold_one_key (group_by : string) (key : value)
    (results done : list JobRecord) :
  (forall r, group_key group_by r = key) ->
  fold_left
    (fun grouped result =>
       grouped_append grouped (group_key group_by result) result)
    results [(key, done)]
  = [(key, (done ++ results)%list)].
Proof.
  intros Hkey. revert done.
  induction results as [|r results IH]; intros done; cbn [fold_left].
  - now rewrite app_nil_r.
  - cbn [grouped_append]. rewrite Hkey, value_eqb_refl, IH.
    now rewrite <- app_assoc.
Qed.

Lemma group_records_one_key (group_by : string) (key : value)
    (result : JobRecord) (results : list JobRecord) :
  (forall r, group_key group_by r = key) ->
  group_records (result :: results) group_by = [(key, result :: results)].
Proof.
  intros Hkey. unfold group_records. cbn [fold_left grouped_append].
  rewrite Hkey. now rewrite fold_one_key.
Qed.

(** C8, as amended. For a field name that [_group_results] does not test
    for by name and whose title-cased form is not a key of the records,
    every record gets the key ["Unknown"], and the result is the one row of
    that key, which counts all the records. *)
Theorem unknown_field_single_bucket (py : Builtins)
    (results : list JobRecord) (group_by : string)
    (Hnonempty : results <> [])
    (Hnamed : ~ In group_by named_group_fields)
    (Hkey : ~ In (title group_by) JobRecord_keys) :
  (forall record, group_key group_by record = VStr "Unknown")
  /\ _group_results py results group_by
     = [summarize py group_by (VStr "Unknown", results)]
  /\ Total_Jobs (summarize py group_by (VStr "Unknown", results))
     = len results.
Proof.
  assert (Hdefault : forall record, group_key group_by record = VStr "Unknown").
  { intros record. now apply group_key_default. }
  split; [exact Hdefault|]. split; [|reflexivity].
  rewrite group_results_rows.
  destruct results as [|result results]; [congruence|].
  now rewrite (group_records_one_key group_by (VStr "Unknown")).
Qed.

Lemma unknown_field_single_bucket_witness :
  map (fun row => (Group row, Total_Jobs row))
    (_group_results exact_builtins scenario_1 "team")
  = [(VStr "Unknown", 4)].
Proof.
  assert (Hnonempty : scenario_1 <> []) by discriminate.
  assert (Hnamed : ~ In "team" named_group_fields).
  { simpl. intros H. repeat destruct H as [H | H]; try discriminate H.
    exact H. }
  assert (Hkey : ~ In (title "team") JobRecord_keys).
  { simpl. intros H. repeat destruct H as [H | H]; try discriminate H.
    exact H. }
  rewrite (proj1 (proj2 (unknown_field_single_bucket exact_builtins
                           scenario_1 "team" Hnonempty Hnamed Hkey))).
  reflexivity.
Defined.

(** C8, as stated, fails for the field name [conclusion]: it is none of
    repo, label, status, workflow, branch, runner_type and cost_category,
    its title-cased form is the key [Conclusion] of the records, and the
    records of scenario 1 fall into a group for each conclusion, none of
    them ["Unknown"]. *)
Lemma group_by_conclusion_not_unknown :
  ~ In "conclusion" ["repo"; "label"; "status"; "workflow"; "branch";
                     "runner_type"; "cost_category"]
  /\ map (group_key "conclusion") scenario_1
     = [VStr "success"; VStr "success"; VStr "failure"; VStr "failure"]
  /\ map (fun row => (Group row, Total_Jobs row))
       (_group_results exact_builtins scenario_1 "conclusion")
     = [(VStr "success", 2); (VStr "failure", 2)].
Proof.
  split; [|split].
  - simpl. intros H. repeat destruct H as [H | H]; try discriminate H.
    exact H.
  - vm_compute. reflexivity.
  - vm_compute. reflexivity.
Qed.

(** ** Usage collector *)

Lemma for_each_app {A S : Type} (l l' : list A) (body : A -> S -> result S)
    (s : S) :
  for_each (l ++ l') body s = (s' <- for_each l body s ;; for_each l' body s').
Proof.
  revert s. induction l as [|x l IH]; intros s; simpl; [reflexivity|].
  destruct (body x s); simpl; [apply IH | reflexivity].
Qed.

(** An element whose body leaves the state as it is can be left out. *)
Lemma for_each_skip {A S : Type} (before after : list A) (x : A)
    (body : A -> S -> result S) (s : S) :
  (forall s', body x s' = Return s') ->
  for_each (before ++ x :: after) body s = for_each (before ++ after) body s.
Proof.
  intros Hskip. rewrite !for_each_app.
  destruct (for_each before body s); simpl; [|reflexivity].
  now rewrite Hskip.
Qed.

Section CollectorProperties.

Variable api : GitHubAPI.

(** [pages_left] does not run out: with the 100 pages that
    [get_repositories] allows, and with any more, the loop ends by itself. *)
Lemma get_repositories_enough_pages (pages_left : nat) (page : Z)
    (repos : list Repository) :
  1 <= page <= 100 -> 100 - page < Z.of_nat pages_left ->
  get_repositories_from api (S pages_left) page repos
  = get_repositories_from api pages_left page repos.
Proof.
  revert page repos.
  induction pages_left as [|n IH]; intros page repos Hpage Hn; [lia|].
  cbn [get_repositories_from].
  destruct (org_repos api page) as [[|r rs]|e]; cbn [bind]; try reflexivity.
  destruct (page + 1 >? 100) eqn:Hlast; [reflexivity|].
  apply (IH (page + 1)); lia.
Qed.

(** A page that fails after non-empty pages makes the listing raise. *)
Lemma get_repositories_from_raises (e : exception) (failing : Z)
    (pages_left : nat) (page : Z) (repos : list Repository) :
  page <= failing <= 100 -> failing - page < Z.of_nat pages_left ->
  (forall q, page <= q < failing ->
     exists r rs, org_repos api q = Return (r :: rs)) ->
  org_repos api failing = Raise e ->
  get_repositories_from api pages_left page repos = Raise e.
Proof.
  revert page repos.
  induction pages_left as [|n IH]; intros page repos Hpage Hn Hbefore Hfail;
    [lia|].
  cbn [get_repositories_from].
  destruct (Z.eq_dec page failing) as [->|Hne].
  - now rewrite Hfail.
  - destruct (Hbefore page) as (r & rs & Hdata); [lia|].
    rewrite Hdata. cbn [bind].
    destruct (page + 1 >? 100) eqn:Hlast; [lia|].
    apply IH; try lia; [|assumption].
    intros q Hq. apply Hbefore. lia.
Qed.

End CollectorProperties.

(** C7. A [GitHubAPIError] from the listing of a repository's runs, or of
    a run's jobs, leaves the results as they are and the loop goes on as if
    the repository, or the run, were not there; a [GitHubAPIError] from a
    page of the organization's repositories that the listing reaches makes
    [analyze_runner_usage] raise it. *)
Theorem fetch_failure_policy (py : Builtins) (api : GitHubAPI)
    (org_name : string) (target_label : option string) (days_back : Z)
    (group_by : string) (status_filter repo_filter : option string) :
  (forall repo,
     workflow_runs api (repo_name repo)
       (if truthy (repo_default_branch repo)
        then Some (repo_default_branch repo) else None) days_back
     = Raise GitHubAPIError ->
     forall before after results,
       for_each (before ++ repo :: after)
         (process_repo api org_name target_label days_back status_filter)
         results
       = for_each (before ++ after)
           (process_repo api org_name target_label days_back status_filter)
           results)
  /\ (forall repo run,
        run_jobs api (repo_name repo) (run_id run) = Raise GitHubAPIError ->
        forall before after results,
          for_each (before ++ run :: after)
            (process_run api org_name target_label status_filter repo) results
          = for_each (before ++ after)
              (process_run api org_name target_label status_filter repo)
              results)
  /\ (forall page,
        1 <= page <= 100 ->
        (forall q, 1 <= q < page ->
           exists r rs, org_repos api q = Return (r :: rs)) ->
        org_repos api page = Raise GitHubAPIError ->
        analyze_runner_usage py api org_name target_label days_back group_by
          status_filter repo_filter
        = Raise GitHubAPIError).
Proof.
  split; [|split].
  - intros repo Hfail before after results.
    apply for_each_skip. intros s.
    unfold process_repo, get_workflow_runs. now rewrite Hfail.
  - intros repo run Hfail before after results.
    apply for_each_skip. intros s.
    unfold process_run, get_jobs_for_run. now rewrite Hfail.
  - intros page Hpage Hbefore Hfail.
    unfold analyze_runner_usage, collect, get_repositories.
    rewrite (get_repositories_from_raises api GitHubAPIError page);
      try assumption; try reflexivity; lia.
Qed.

Lemma fetch_failure_policy_witness :
  collect api_partial_failures "acme" None 30 None None
  = for_each [run_ci 2]
      (process_run api_partial_failures "acme" None None repo_ml) []
  /\ analyze_runner_usage exact_builtins api_listing_failure "acme" None 30
       "none" None None
     = Raise GitHubAPIError.
Proof.
  pose proof (fetch_failure_policy exact_builtins api_partial_failures "acme"
                None 30 "none" None None) as (Hruns & Hjobs & _).
  pose proof (fetch_failure_policy exact_builtins api_listing_failure "acme"
                None 30 "none" None None) as (_ & _ & Hrepos).
  split.
  - change (collect api_partial_failures "acme" None 30 None None)
      with (for_each ([] ++ repo_web :: [repo_ml])
              (process_repo api_partial_failures "acme" None 30 None) []).
    rewrite (Hruns repo_web eq_refl [] [repo_ml] []).
    change (for_each ([] ++ [repo_ml])
              (process_repo api_partial_failures "acme" None 30 None) [])
      with (for_each ([] ++ run_ci 1 :: [run_ci 2])
              (process_run api_partial_failures "acme" None None repo_ml) []).
    exact (Hjobs repo_ml (run_ci 1) eq_refl [] [run_ci 2] []).
  - apply (Hrepos 2); [lia | | reflexivity].
    intros q Hq. assert (q = 1) as -> by lia.
    exists repo_web, [repo_ml]. reflexivity.
Defined.

(** C9. A job that lists no labels and is not filtered out is recorded
    with the runner labels ["unknown"], the runner type ["Unknown"] and the
    cost category ["Standard"]. *)
Theorem empty_labels_record (org_name : string)
    (target_label status_filter : option string) (repo : Repository)
    (run : WorkflowRun) (job : Job) (results results' : list JobRecord)
    (Hlabels : job_labels job = Absent \/ job_labels job = Present [])
    (Hreturn : process_job org_name target_label status_filter repo run job
                 results = Return results') :
  results' = results
  \/ exists record,
       results' = (results ++ [record])%list
       /\ Runner_Labels record = "unknown"
       /\ Runner_Type record = "Unknown"
       /\ Cost_Category record = "Standard".
Proof.
  unfold process_job in Hreturn.
  assert (Hl : match job_labels job with
               | Absent => Some []
               | Null => None
               | Present l => Some l
               end = Some (@nil string)).
  { destruct Hlabels as [-> | ->]; reflexivity. }
  rewrite Hl in Hreturn. clear Hl.
  match type of Hreturn with
  | bind ?skip _ = _ => destruct skip as [[|]|e]
  end; cbn [bind] in Hreturn; try discriminate.
  - left. congruence.
  - destruct target_label as [t|]; cbn [bind mem existsb] in Hreturn.
    + left. congruence.
    + destruct (_calculate_duration job) as [duration|e];
        cbn [bind] in Hreturn; [|discriminate].
      right. injection Hreturn as <-.
      eexists. split; [reflexivity|]. repeat split.
Qed.

Lemma empty_labels_record_witness :
  process_job "acme" None (Some "in_progress") repo_ml (run_ci 2)
    job_without_labels []
  = Return [sample_record_of_job_without_labels]
  /\ Runner_Labels sample_record_of_job_without_labels = "unknown"
  /\ Runner_Type sample_record_of_job_without_labels = "Unknown"
  /\ Cost_Category sample_record_of_job_without_labels = "Standard".
Proof.
  assert (Hreturn : process_job "acme" None (Some "in_progress") repo_ml
                      (run_ci 2) job_without_labels []
                    = Return [sample_record_of_job_without_labels])
    by reflexivity.
  split; [exact Hreturn|].
  destruct (empty_labels_record "acme" None (Some "in_progress") repo_ml
              (run_ci 2) job_without_labels []
              [sample_record_of_job_without_labels]
              (or_intror eq_refl) Hreturn)
    as [Hsame | (record & Hrecord & Hfields)].
  - discriminate Hsame.
  - injection Hrecord as <-. exact Hfields.
Defined.

(** * Further properties *)

(** ** Substrings *)

Lemma prefix_spec (a s : string) :
  String.prefix a s = true <-> exists post, s = a ++ post.
Proof.
  revert s. induction a as [|c a IH]; intros s.
  - split; [intros _; now exists s | now destruct s].
  - destruct s as [|d s].
    + split; [discriminate | intros (post & H); discriminate H].
    + rewrite prefix_cons, andb_true_iff, IH, Ascii.eqb_eq. split.
      * intros (-> & post & ->). now exists post.
      * intros (post & H). injection H as -> ->. split; [reflexivity|].
        now exists post.
Qed.

(** [sub in s] holds exactly when [s] is [sub] between two strings. *)
Lemma contains_spec (sub s : string) :
  contains sub s = true <-> exists pre post, s = pre ++ sub ++ post.
Proof.
  induction s as [|c s IH]; cbn [contains].
  - rewrite orb_false_r, prefix_spec. split.
    + intros (post & H). now exists EmptyString, post.
    + intros (pre & post & H). destruct pre; [now exists post|discriminate].
  - rewrite orb_true_iff, prefix_spec, IH. split.
    + intros [(post & H) | (pre & post & H)].
      * now exists EmptyString, post.
      * exists (String c pre), post. cbn. now rewrite H.
    + intros ([|d pre] & post & H).
      * left. now exists post.
      * right. cbn in H. injection H as -> ->. now exists pre, post.
Qed.

Lemma append_assoc (a b c : string) : (a ++ b) ++ c = a ++ b ++ c.
Proof.
  induction a as [|x a IH]; cbn; [reflexivity | now rewrite IH].
Qed.

Lemma contains_trans (a b s : string) :
  contains a b = true -> contains b s = true -> contains a s = true.
Proof.
  rewrite !contains_spec.
  intros (pre & post & ->) (pre' & post' & ->).
  exists (pre' ++ pre), (post ++ post').
  now rewrite !append_assoc.
Qed.

(** ** Cost category *)

Lemma get_cost_category_lowered (labels : list string) :
  _get_cost_category (map lower labels) = _get_cost_category labels.
Proof.
  unfold _get_cost_category.
  replace (lower (join " " (map lower labels))) with (lower (join " " labels));
    [reflexivity|].
  rewrite !lower_join, map_map.
  f_equal. apply map_ext. intros s. now rewrite lower_idempotent.
Qed.

(** X1. The cost category is the category of the first rule of its table
    (self-hosted; the six size marks; the three [-latest] images) one of
    whose substrings occurs in the lowered labels joined by spaces,
    [Standard] when there is none, and the letter case of the labels does
    not matter. *)
Theorem get_cost_category_first_match (labels : list string) :
  _get_cost_category labels
  = first_match cost_category_rules "Standard" (lower (join " " labels))
  /\ _get_cost_category (map lower labels) = _get_cost_category labels.
Proof.
  split; [|apply get_cost_category_lowered].
  unfold _get_cost_category, cost_category_rules.
  cbn [first_match existsb].
  rewrite !orb_false_r.
  reflexivity.
Qed.

(** X2. The cost category is one of the four categories, [Standard] for
    the empty list, and it is the same for any reordering of the labels. *)
Theorem get_cost_category_order_independent (labels labels' : list string)
    (Hperm : Permutation labels labels') :
  _get_cost_category labels = _get_cost_category labels'
  /\ In (_get_cost_category labels) cost_categories
  /\ _get_cost_category [] = "Standard".
Proof.
  split; [|split; [|reflexivity]].
  - unfold _get_cost_category. cbn [existsb].
    rewrite (labels_in_any_order "self-hosted" labels labels'),
      (labels_in_any_order "large" labels labels'),
      (labels_in_any_order "xl" labels labels'),
      (labels_in_any_order "xxl" labels labels'),
      (labels_in_any_order "4-core" labels labels'),
      (labels_in_any_order "8-core" labels labels'),
      (labels_in_any_order "16-core" labels labels'),
      (labels_in_any_order "ubuntu-latest" labels labels'),
      (labels_in_any_order "windows-latest" labels labels'),
      (labels_in_any_order "macos-latest" labels labels')
      by (reflexivity || discriminate || assumption).
    reflexivity.
  - unfold _get_cost_category, cost_categories.
    repeat match goal with
           | |- context [if ?b then _ else _] => destruct b
           end; simpl; tauto.
Qed.

Lemma get_cost_category_order_independent_witness :
  _get_cost_category ["ubuntu-latest"; "4-core"]
  = _get_cost_category ["4-core"; "ubuntu-latest"].
Proof.
  exact (proj1 (get_cost_category_order_independent
                  ["ubuntu-latest"; "4-core"] ["4-core"; "ubuntu-latest"]
                  (perm_swap _ _ []))).
Defined.

(** X3. The two classifiers agree: the cost category is the self-hosted
    one exactly when the runner type is [Self-hosted]; a [Standard
    GitHub-hosted] cost goes with the runner type [GitHub-hosted]; and a
    runner of type [GitHub-hosted] costs [Large Instance] or [Standard
    GitHub-hosted]. *)
Theorem classifiers_agree (labels : list string) :
  (_get_cost_category labels = "Self-hosted (Custom Cost)"
   <-> _categorize_runner labels = "Self-hosted")
  /\ (_get_cost_category labels = "Standard GitHub-hosted"
      -> _categorize_runner labels = "GitHub-hosted")
  /\ (_categorize_runner labels = "GitHub-hosted"
      -> _get_cost_category labels = "Large Instance"
         \/ _get_cost_category labels = "Standard GitHub-hosted").
Proof.
  unfold _get_cost_category, _categorize_runner.
  destruct (contains "self-hosted" (lower (join " " labels))).
  - repeat split; intros; try reflexivity; discriminate.
  - destruct (existsb _ ["large"; "xl"; "xxl"; "4-core"; "8-core"; "16-core"]);
      destruct (existsb _ ["ubuntu-latest"; "windows-latest"; "macos-latest"]);
      repeat match goal with
             | |- context [if ?b then _ else _] => destruct b
             end;
      repeat split; intros; try discriminate; try reflexivity; auto.
Qed.

Lemma classifiers_agree_witness :
  _categorize_runner ["ubuntu-latest"] = "GitHub-hosted"
  /\ _categorize_runner ["Self-Hosted"; "gpu"] = "Self-hosted".
Proof.
  split.
  - apply (proj1 (proj2 (classifiers_agree ["ubuntu-latest"]))).
    reflexivity.
  - apply (proj1 (classifiers_agree ["Self-Hosted"; "gpu"])).
    reflexivity.
Defined.

(** X4. The test for [xxl] never decides the cost category: labels that
    contain [xxl] contain [xl], which is tested before it. *)
Theorem get_cost_category_xxl_redundant (labels : list string) :
  _get_cost_category labels
  = first_match
      [(["self-hosted"], "Self-hosted (Custom Cost)");
       (["large"; "xl"; "4-core"; "8-core"; "16-core"], "Large Instance");
       (["ubuntu-latest"; "windows-latest"; "macos-latest"],
        "Standard GitHub-hosted")]
      "Standard" (lower (join " " labels)).
Proof.
  unfold _get_cost_category. cbn [first_match existsb].
  rewrite !orb_false_r.
  destruct (contains "xxl" (lower (join " " labels))) eqn:Hxxl;
    [|reflexivity].
  assert (Hxl : contains "xl" (lower (join " " labels)) = true).
  { apply (contains_trans "xl" "xxl"); [reflexivity | assumption]. }
  rewrite Hxl. reflexivity.
Qed.

(** ** Status badge *)

Lemma dict_get_In (key default : string) (d : list (string * string)) :
  In (dict_get key d default) (default :: map snd d).
Proof.
  induction d as [|[k v] d IH]; cbn [dict_get map snd]; [now left|].
  destruct (String.eqb k key).
  - right. now left.
  - destruct IH as [IH | IH]; [now left | right; now right].
Qed.

(** X5. The badge class of a status does not depend on the letter case of
    the status, and it is one of the four badge classes, the default one
    included. *)
Theorem get_status_class_case_insensitive (status : string) :
  _get_status_class (lower status) = _get_status_class status
  /\ In (_get_status_class status)
       ["badge-success"; "badge-failure"; "badge-in-progress";
        "badge-default"].
Proof.
  split.
  - unfold _get_status_class. now rewrite lower_idempotent.
  - unfold _get_status_class.
    match goal with
    | |- In (dict_get ?k ?d ?def) _ =>
        pose proof (dict_get_In k def d) as H
    end.
    cbn [map snd] in H. cbn [In] in *. intuition auto.
Qed.

(** ** Repository listing *)

Section Listing.

Variable api : GitHubAPI.
Variable data : Z -> list Repository.

(** Non-empty pages followed by an empty page. *)
Lemma get_repositories_from_until_empty (count pages_left : nat) (page : Z)
    (repos : list Repository) :
  1 <= page -> page + Z.of_nat count <= 100 -> (count < pages_left)%nat ->
  (forall q, page <= q < page + Z.of_nat count ->
     org_repos api q = Return (data q) /\ data q <> []) ->
  org_repos api (page + Z.of_nat count) = Return [] ->
  get_repositories_from api pages_left page repos
  = Return (repos ++ pages_concat data page count)%list.
Proof.
  revert pages_left page repos.
  induction count as [|count IH]; intros pages_left page repos Hpage Hlast
    Hleft Hpages Hempty;
    (destruct pages_left as [|pages_left]; [lia|]);
    cbn [get_repositories_from pages_concat].
  - rewrite Z.add_0_r in Hempty. rewrite Hempty. cbn [bind].
    now rewrite app_nil_r.
  - destruct (Hpages page) as [Hdata Hnonempty]; [lia|].
    rewrite Hdata. cbn [bind].
    destruct (data page) as [|r rs] eqn:Hd; [congruence|].
    destruct (page + 1 >? 100) eqn:Hcap; [lia|].
    rewrite (IH pages_left (page + 1)); try lia.
    + now rewrite app_assoc.
    + intros q Hq. apply Hpages. lia.
    + rewrite <- Hempty. f_equal. lia.
Qed.

(** Non-empty pages up to page 100. *)
Lemma get_repositories_from_capped (count pages_left : nat) (page : Z)
    (repos : list Repository) :
  1 <= page -> page + Z.of_nat count = 100 -> (count < pages_left)%nat ->
  (forall q, page <= q <= 100 ->
     org_repos api q = Return (data q) /\ data q <> []) ->
  get_repositories_from api pages_left page repos
  = Return (repos ++ pages_concat data page (S count))%list.
Proof.
  revert pages_left page repos.
  induction count as [|count IH]; intros pages_left page repos Hpage Hlast
    Hleft Hpages;
    (destruct pages_left as [|pages_left]; [lia|]);
    cbn [get_repositories_from pages_concat];
    (destruct (Hpages page) as [Hdata Hnonempty]; [lia|]);
    rewrite Hdata; cbn [bind];
    (destruct (data page) as [|r rs] eqn:Hd; [congruence|]).
  - destruct (page + 1 >? 100) eqn:Hcap; [|lia].
    now rewrite app_nil_r.
  - destruct (page + 1 >? 100) eqn:Hcap; [lia|].
    rewrite (IH pages_left (page + 1)); try lia.
    + cbn [pages_concat]. now rewrite <- app_assoc.
    + intros q Hq. apply Hpages. lia.
Qed.

End Listing.

(** X6. When the first [count] pages of the organization's repositories
    are not empty, [count] is below 100 and the next page is empty,
    [get_repositories] returns the repositories of those pages in the
    order of the pages. *)
Theorem get_repositories_until_empty (api : GitHubAPI)
    (data : Z -> list Repository) (count : nat)
    (Hcount : (count < 100)%nat)
    (Hpages : forall q, 1 <= q <= Z.of_nat count ->
                org_repos api q = Return (data q) /\ data q <> [])
    (Hempty : org_repos api (Z.of_nat count + 1) = Return []) :
  get_repositories api = Return (pages_concat data 1 count).
Proof.
  unfold get_repositories.
  rewrite (get_repositories_from_until_empty api data count); try lia.
  - reflexivity.
  - intros q Hq. apply Hpages. lia.
  - rewrite <- Hempty. f_equal. lia.
Qed.

Lemma get_repositories_until_empty_witness :
  get_repositories api_partial_failures = Return [repo_web; repo_ml].
Proof.
  apply (get_repositories_until_empty api_partial_failures
           (fun _ => [repo_web; repo_ml]) 1).
  - lia.
  - intros q Hq. assert (q = 1) as -> by lia. split; [reflexivity|].
    discriminate.
  - reflexivity.
Defined.

(** X7. When none of the first 100 pages is empty, [get_repositories]
    returns the repositories of these 100 pages and asks for no further
    page: what the listing has beyond page 100 is left out. *)
Theorem get_repositories_capped (api : GitHubAPI)
    (data : Z -> list Repository)
    (Hpages : forall q, 1 <= q <= 100 ->
                org_repos api q = Return (data q) /\ data q <> []) :
  get_repositories api = Return (pages_concat data 1 100).
Proof.
  unfold get_repositories.
  now rewrite (get_repositories_from_capped api data 99); try lia.
Qed.

Lemma get_repositories_capped_witness :
  get_repositories
    {| org_repos := fun page =>
         if page <=? 100 then Return [repo_web] else Raise GitHubAPIError;
       workflow_runs := fun _ _ _ => Return None;
       run_jobs := fun _ _ => Return None |}
  = Return (pages_concat (fun _ => [repo_web]) 1 100).
Proof.
  apply get_repositories_capped.
  intros q Hq. split; [|discriminate].
  cbn [org_repos]. destruct (Z.leb_spec q 100); [reflexivity | lia].
Defined.

Lemma get_repositories_from_ext (api api' : GitHubAPI) (pages_left : nat)
    (page : Z) (repos : list Repository) :
  1 <= page <= 100 ->
  (forall q, 1 <= q <= 100 -> org_repos api q = org_repos api' q) ->
  get_repositories_from api pages_left page repos
  = get_repositories_from api' pages_left page repos.
Proof.
  revert page repos.
  induction pages_left as [|n IH]; intros page repos Hpage Hsame;
    cbn [get_repositories_from]; [reflexivity|].
  rewrite <- (Hsame page Hpage).
  destruct (org_repos api page) as [[|r rs]|e]; cbn [bind]; try reflexivity.
  destruct (page + 1 >? 100) eqn:Hcap; [reflexivity|].
  apply IH; [lia | assumption].
Qed.

(** X8. [get_repositories] depends on the first 100 pages only: two
    listings that agree on the pages 1 to 100 give the same result, the
    same exception included. *)
Theorem get_repositories_first_100_pages (api api' : GitHubAPI)
    (Hsame : forall q, 1 <= q <= 100 -> org_repos api q = org_repos api' q) :
  get_repositories api = get_repositories api'.
Proof.
  unfold get_repositories. apply get_repositories_from_ext; [lia|assumption].
Qed.

Lemma get_repositories_first_100_pages_witness :
  get_repositories api_partial_failures
  = get_repositories
      {| org_repos := fun page =>
           if page =? 1 then Return [repo_web; repo_ml]
           else if page <=? 100 then Return []
           else Raise TypeError;
         workflow_runs := fun _ _ _ => Return None;
         run_jobs := fun _ _ => Return None |}.
Proof.
  apply get_repositories_first_100_pages.
  intros q Hq. cbn [org_repos api_partial_failures].
  destruct (q =? 1); [reflexivity|].
  destruct (Z.leb_spec q 100); [reflexivity | lia].
Defined.

(** ** Order and independence of the collection *)

Lemma for_each_appends {A B : Type} (l : list A)
    (body : A -> list B -> result (list B)) :
  (forall x s, body x s = (new <- body x [] ;; Return (s ++ new)%list)) ->
  forall s,
    for_each l body s = (new <- for_each l body [] ;; Return (s ++ new)%list).
Proof.
  intros Hbody. induction l as [|x l IH]; intros s; cbn [for_each bind].
  - now rewrite app_nil_r.
  - rewrite (Hbody x s).
    destruct (body x []) as [new|e]; cbn [bind]; [|reflexivity].
    rewrite (IH (s ++ new)%list), (IH new).
    destruct (for_each l body []) as [new'|e]; cbn [bind]; [|reflexivity].
    now rewrite app_assoc.
Qed.

Section Appending.

Variable api : GitHubAPI.
Variable org_name : string.
Variable target_label : option string.
Variable days_back : Z.
Variable status_filter : option string.

Lemma process_job_appends (repo : Repository) (run : WorkflowRun) (job : Job)
    (results : list JobRecord) :
  process_job org_name target_label status_filter repo run job results
  = (new <- process_job org_name target_label status_filter repo run job [] ;;
     Return (results ++ new)%list).
Proof.
  unfold process_job.
  match goal with
  | |- bind ?skip _ = _ => destruct skip as [[|]|e]
  end; cbn [bind]; try reflexivity.
  - now rewrite app_nil_r.
  - match goal with
    | |- bind ?selected _ = _ => destruct selected as [[|]|e]
    end; cbn [bind]; try reflexivity; [|now rewrite app_nil_r].
    match goal with
    | |- bind ?given _ = _ => destruct given as [labels|e]
    end; cbn [bind]; try reflexivity.
    destruct (_calculate_duration job); cbn [bind]; reflexivity.
Qed.

Lemma process_run_appends (repo : Repository) (run : WorkflowRun)
    (results : list JobRecord) :
  process_run api org_name target_label status_filter repo run results
  = (new <- process_run api org_name target_label status_filter repo run [] ;;
     Return (results ++ new)%list).
Proof.
  unfold process_run.
  destruct (get_jobs_for_run api (repo_name repo) (run_id run)) as [jobs|e];
    cbn [bind]; [|reflexivity].
  apply for_each_appends. intros job s. apply process_job_appends.
Qed.

Lemma process_repo_appends (repo : Repository) (results : list JobRecord) :
  process_repo api org_name target_label days_back status_filter repo results
  = (new <- process_repo api org_name target_label days_back status_filter
              repo [] ;;
     Return (results ++ new)%list).
Proof.
  unfold process_repo.
  destruct (get_workflow_runs api (repo_name repo) (repo_default_branch repo)
              days_back) as [runs|e]; cbn [bind]; [|reflexivity].
  apply for_each_appends. intros run s. apply process_run_appends.
Qed.

End Appending.

(** X9. The collection keeps the order of the listing and the records of a
    repository do not depend on what was collected before it: going
    through two lists of repositories one after the other gives the
    records of the first list followed by those of the second, whatever
    records there were at the start. *)
Theorem collection_in_listing_order (api : GitHubAPI) (org_name : string)
    (target_label : option string) (days_back : Z)
    (status_filter : option string) (repos repos' : list Repository)
    (results : list JobRecord) :
  let visit := process_repo api org_name target_label days_back
                 status_filter in
  for_each (repos ++ repos') visit results
  = (records <- for_each repos visit [] ;;
     records' <- for_each repos' visit [] ;;
     Return (results ++ records ++ records')%list).
Proof.
  cbv zeta.
  rewrite for_each_app.
  rewrite (for_each_appends repos _
             (process_repo_appends api org_name target_label days_back
                status_filter) results).
  destruct (for_each repos _ []) as [records|e]; cbn [bind]; [|reflexivity].
  rewrite (for_each_appends repos' _
             (process_repo_appends api org_name target_label days_back
                status_filter) (results ++ records)%list).
  destruct (for_each repos' _ []) as [records'|e]; cbn [bind]; [|reflexivity].
  now rewrite app_assoc.
Qed.

(** ** What the collector records *)

Lemma for_each_Forall {A B : Type} (P : B -> Prop) (l : list A)
    (body : A -> list B -> result (list B)) :
  (forall x s s', Forall P s -> body x s = Return s' -> Forall P s') ->
  forall s s', Forall P s -> for_each l body s = Return s' -> Forall P s'.
Proof.
  intros Hbody. induction l as [|x l IH]; intros s s' Hs Hrun;
    cbn [for_each] in Hrun.
  - now injection Hrun as <-.
  - destruct (body x s) as [s1|e] eqn:Hx; cbn [bind] in Hrun; [|discriminate].
    apply (IH s1 s'); [|assumption]. now apply (Hbody x s).
Qed.

Lemma categorize_runner_in_types (labels : list string) :
  In (_categorize_runner labels) runner_types.
Proof.
  unfold _categorize_runner, runner_types.
  repeat match goal with
         | |- context [if ?b then _ else _] => destruct b
         end; simpl; tauto.
Qed.

Lemma get_cost_category_in_categories (labels : list string) :
  In (_get_cost_category labels) cost_categories.
Proof.
  unfold _get_cost_category, cost_categories.
  repeat match goal with
         | |- context [if ?b then _ else _] => destruct b
         end; simpl; tauto.
Qed.

(** A label of the list occurs in the joined labels. *)
Lemma contains_join (sep t : string) (l : list string) :
  mem t l = true -> contains t (join sep l) = true.
Proof.
  unfold mem, join. intros Hmem. apply contains_spec.
  induction l as [|x [|y l] IH]; cbn [existsb] in Hmem.
  - discriminate.
  - rewrite orb_false_r in Hmem. apply String.eqb_eq in Hmem. subst x.
    exists EmptyString, EmptyString. cbn.
    clear. induction t; cbn; [reflexivity | now f_equal].
  - apply orb_true_iff in Hmem as [Hx | Hrest].
    + apply String.eqb_eq in Hx. subst x.
      exists EmptyString, (sep ++ String.concat sep (y :: l)). reflexivity.
    + destruct (IH Hrest) as (pre & post & Hjoin).
      exists (x ++ sep ++ pre), post.
      change (String.concat sep (x :: y :: l))
        with (x ++ sep ++ String.concat sep (y :: l)).
      rewrite Hjoin. now rewrite !append_assoc.
Qed.

Section Recording.

Variable org_name : string.
Variable target_label : option string.
Variable status_filter : option string.

(** What [process_job] appends, when it appends. *)
Lemma process_job_emits (repo : Repository) (run : WorkflowRun) (job : Job)
    (results results' : list JobRecord) :
  process_job org_name target_label status_filter repo run job results
  = Return results' ->
  results' = results
  \/ exists record labels,
       results' = (results ++ [record])%list
       /\ Org record = org_name
       /\ Repo record = repo_name repo
       /\ Runner_Labels record
          = match labels with [] => "unknown" | _ => join ", " labels end
       /\ Runner_Type record = _categorize_runner labels
       /\ Cost_Category record = _get_cost_category labels
       /\ _calculate_duration job = Return (Duration record)
       /\ (forall t, target_label = Some t -> mem t labels = true)
       /\ (forall f, status_filter = Some f -> truthy f = true ->
             value_lower (Job_Status record) = Return (lower f)).
Proof.
  unfold process_job. intros Hrun.
  match type of Hrun with
  | bind ?skip _ = _ => destruct skip as [[|]|e] eqn:Hskip
  end; cbn [bind] in Hrun; try discriminate.
  - left. congruence.
  - match type of Hrun with
    | bind ?selected _ = _ => destruct selected as [[|]|e] eqn:Hselected
    end; cbn [bind] in Hrun; try discriminate; [|left; congruence].
    match type of Hrun with
    | bind ?given _ = _ => destruct given as [labels|e] eqn:Hlabels
    end; cbn [bind] in Hrun; try discriminate.
    destruct (_calculate_duration job) as [duration|e] eqn:Hduration;
      cbn [bind] in Hrun; [|discriminate].
    right. injection Hrun as <-.
    destruct (match job_labels job with
              | Absent => Some []
              | Null => None
              | Present l => Some l
              end) as [labels0|] eqn:Hjob; [|discriminate].
    injection Hlabels as ->.
    eexists. exists labels. split; [reflexivity|].
    cbn [Org Repo Runner_Labels Runner_Type Cost_Category Duration Job_Status].
    repeat split.
    + now destruct labels.
    + intros t ->. now injection Hselected as ->.
    + intros f -> Hf. rewrite Hf in Hskip.
      destruct (value_lower _) as [status|e]; cbn [bind] in Hskip;
        [|discriminate].
      injection Hskip as Hskip. apply negb_false_iff in Hskip.
      apply String.eqb_eq in Hskip. now subst status.
Qed.

(** A property of every record that [process_job] appends holds for all
    the records of the collection. *)
Lemma collect_Forall (P : JobRecord -> Prop) (api : GitHubAPI)
    (days_back : Z) (repo_filter : option string) :
  (forall repo run job results results',
     process_job org_name target_label status_filter repo run job results
     = Return results' ->
     results' = results
     \/ exists record, results' = (results ++ [record])%list /\ P record) ->
  forall records,
    collect api org_name target_label days_back status_filter repo_filter
    = Return records ->
    Forall P records.
Proof.
  intros Hjob records Hcollect. unfold collect in Hcollect.
  destruct (get_repositories api) as [repos|e]; cbn [bind] in Hcollect;
    [|discriminate].
  revert Hcollect. apply for_each_Forall; [|constructor].
  intros repo s s' Hs. unfold process_repo.
  destruct (get_workflow_runs _ _ _ _) as [runs|e]; cbn [bind];
    [|discriminate].
  apply for_each_Forall; [|assumption].
  clear s s' Hs. intros run s s' Hs. unfold process_run.
  destruct (get_jobs_for_run _ _ _) as [jobs|e]; cbn [bind]; [|discriminate].
  apply for_each_Forall; [|assumption].
  clear s s' Hs. intros job s s' Hs Hrun.
  destruct (Hjob _ _ _ _ _ Hrun) as [-> | (record & -> & Hrecord)];
    [assumption|].
  apply Forall_app. split; [assumption | now constructor].
Qed.

End Recording.

(** X10. With a status filter, every record of the collection has a job
    status that is a string equal to the filter up to letter case. *)
Theorem collect_status_filter (api : GitHubAPI) (org_name : string)
    (target_label : option string) (days_back : Z) (status : string)
    (repo_filter : option string) (records : list JobRecord)
    (Hfilter : truthy status = true)
    (Hcollect : collect api org_name target_label days_back (Some status)
                  repo_filter = Return records) :
  Forall (fun record =>
            exists s, Job_Status record = VStr s /\ lower s = lower status)
    records.
Proof.
  revert Hcollect. apply collect_Forall.
  intros repo run job results results' Hrun.
  destruct (process_job_emits _ _ _ _ _ _ _ _ Hrun)
    as [-> | (record & labels & -> & _ & _ & _ & _ & _ & _ & _ & Hstatus)];
    [now left|].
  right. exists record. split; [reflexivity|].
  specialize (Hstatus status eq_refl Hfilter).
  destruct (Job_Status record) as [| |s]; try discriminate.
  exists s. split; [reflexivity|]. now injection Hstatus.
Qed.

Lemma collect_status_filter_witness :
  exists records,
    collect api_running "acme" None 30 (Some "IN_PROGRESS") None
    = Return records
    /\ List.length records = 2%nat
    /\ Forall (fun record =>
                 exists s, Job_Status record = VStr s
                           /\ lower s = lower "IN_PROGRESS") records.
Proof.
  eexists. split; [vm_compute; reflexivity|]. split; [reflexivity|].
  apply (collect_status_filter api_running "acme" None 30 "IN_PROGRESS" None);
    [reflexivity | vm_compute; reflexivity].
Defined.

(** X11. With a target label, the runner labels of every record of the
    collection contain the target label. *)
Theorem collect_target_label (api : GitHubAPI) (org_name : string)
    (target : string) (days_back : Z) (status_filter : option string)
    (repo_filter : option string) (records : list JobRecord)
    (Hcollect : collect api org_name (Some target) days_back status_filter
                  repo_filter = Return records) :
  Forall (fun record => contains target (Runner_Labels record) = true)
    records.
Proof.
  revert Hcollect. apply collect_Forall.
  intros repo run job results results' Hrun.
  destruct (process_job_emits _ _ _ _ _ _ _ _ Hrun)
    as [-> | (record & labels & -> & _ & _ & Hlabels & _ & _ & _ & Hmem & _)];
    [now left|].
  right. exists record. split; [reflexivity|].
  specialize (Hmem target eq_refl). rewrite Hlabels.
  destruct labels as [|l labels]; [discriminate|].
  now apply contains_join.
Qed.

Lemma collect_target_label_witness :
  exists records,
    collect api_running "acme" (Some "gpu") 30 None None = Return records
    /\ List.length records = 1%nat
    /\ Forall (fun record => contains "gpu" (Runner_Labels record) = true)
         records.
Proof.
  eexists. split; [vm_compute; reflexivity|]. split; [reflexivity|].
  apply (collect_target_label api_running "acme" "gpu" 30 None None).
  vm_compute. reflexivity.
Defined.

(** X12. Every record of the collection carries the organization's name,
    one of the seven runner types and one of the four cost categories, the
    cost category being the self-hosted one exactly when the runner type
    is [Self-hosted]. *)
Theorem collect_well_formed (api : GitHubAPI) (org_name : string)
    (target_label : option string) (days_back : Z)
    (status_filter repo_filter : option string) (records : list JobRecord)
    (Hcollect : collect api org_name target_label days_back status_filter
                  repo_filter = Return records) :
  Forall (fun record =>
            Org record = org_name
            /\ In (Runner_Type record) runner_types
            /\ In (Cost_Category record) cost_categories
            /\ (Cost_Category record = "Self-hosted (Custom Cost)"
                <-> Runner_Type record = "Self-hosted"))
    records.
Proof.
  revert Hcollect. apply collect_Forall.
  intros repo run job results results' Hrun.
  destruct (process_job_emits _ _ _ _ _ _ _ _ Hrun)
    as [-> | (record & labels & -> & Horg & _ & _ & Htype & Hcost & _)];
    [now left|].
  right. exists record. split; [reflexivity|].
  rewrite Htype, Hcost. split; [assumption|].
  split; [apply categorize_runner_in_types|].
  split; [apply get_cost_category_in_categories|].
  unfold _get_cost_category, _categorize_runner.
  destruct (contains "self-hosted" (lower (join " " labels))).
  - split; reflexivity.
  - repeat match goal with
           | |- context [if ?b then _ else _] => destruct b
           end; split; discriminate.
Qed.

Lemma collect_well_formed_witness :
  exists records,
    collect api_running "acme" None 30 None None = Return records
    /\ map Runner_Type records = ["Unknown"; "Self-hosted"]
    /\ Forall (fun record =>
                 Org record = "acme"
                 /\ In (Runner_Type record) runner_types
                 /\ In (Cost_Category record) cost_categories
                 /\ (Cost_Category record = "Self-hosted (Custom Cost)"
                     <-> Runner_Type record = "Self-hosted"))
         records.
Proof.
  eexists. split; [vm_compute; reflexivity|]. split; [reflexivity|].
  apply (collect_well_formed api_running "acme" None 30 None None).
  vm_compute. reflexivity.
Defined.

(** ** Durations in the analysis *)

Lemma average_duration_unknown (py : Builtins) (group_items : list JobRecord) :
  Forall (fun item => Duration item = "unknown") group_items ->
  average_duration py group_items = "unknown".
Proof.
  intros Hall. unfold average_duration.
  replace (flat_map _ group_items) with (@nil Z); [reflexivity|].
  induction Hall as [|item group_items Hitem _ IH]; cbn [flat_map];
    [reflexivity|].
  rewrite <- IH. unfold duration_seconds, record_get. cbn [items lookup].
  cbn. now rewrite Hitem.
Qed.

(** X13. No analysis that returns shows a duration: in a flat report every
    record has the duration ["unknown"], and in a grouped report every row
    has the average duration ["unknown"]. *)
Theorem analysis_durations_unknown (py : Builtins) (api : GitHubAPI)
    (org_name : string) (target_label : option string) (days_back : Z)
    (group_by : string) (status_filter repo_filter : option string)
    (rep : report)
    (Hreturn : analyze_runner_usage py api org_name target_label days_back
                 group_by status_filter repo_filter = Return rep) :
  match rep with
  | Flat records => Forall (fun record => Duration record = "unknown") records
  | Grouped rows =>
      Forall (fun row => Average_Duration row = "unknown") rows
  end.
Proof.
  unfold analyze_runner_usage in Hreturn.
  destruct (collect _ _ _ _ _ _) as [records|e] eqn:Hcollect;
    cbn [bind] in Hreturn; [|discriminate].
  injection Hreturn as <-.
  assert (Hall : Forall (fun record => Duration record = "unknown") records).
  { revert Hcollect. apply collect_Forall.
    intros repo run job results results' Hrun.
    destruct (process_job_emits _ _ _ _ _ _ _ _ Hrun)
      as [-> | (record & labels & -> & _ & _ & _ & _ & _ & Hd & _)];
      [now left|].
    right. exists record. split; [reflexivity|].
    destruct (calculate_duration_unknown_or_raises job) as [H | H];
      congruence. }
  unfold group_if_requested.
  destruct (negb (group_by =? "none")%string); [|assumption].
  rewrite group_results_rows. apply Forall_map, Forall_forall.
  intros [key group_items] Hgroup. cbn [summarize Average_Duration].
  apply average_duration_unknown.
  rewrite <- (group_of_In _ _ _ (group_records_NoDup group_by records) Hgroup).
  rewrite group_records_group_of.
  apply Forall_forall. intros item Hitem. apply filter_In in Hitem as [Hitem _].
  revert item Hitem. now apply Forall_forall.
Qed.

Lemma analysis_durations_unknown_witness :
  exists rows,
    analyze_runner_usage exact_builtins api_running "acme" None 30
      "runner_type" None None
    = Return (Grouped rows)
    /\ map Group rows = [VStr "Unknown"; VStr "Self-hosted"]
    /\ Forall (fun row => Average_Duration row = "unknown") rows.
Proof.
  eexists. split; [vm_compute; reflexivity|]. split; [reflexivity|].
  apply (analysis_durations_unknown exact_builtins api_running "acme" None 30
           "runner_type" None None (Grouped _)).
  vm_compute. reflexivity.
Defined.

(** ** Finished jobs *)

Lemma calculate_duration_raises (job : Job) :
  has_interval job -> _calculate_duration job = Raise AttributeError.
Proof.
  intros (started_at & completed_at & start_time & end_time & delta
          & Hs & Hc & Hts & Htc & Hps & Hpc & Hsub).
  unfold _calculate_duration, _calculate_duration_with, both_truthy.
  rewrite Hs, Hc, Hts, Htc. cbn [andb].
  unfold parse_timestamp in *. rewrite Hps. cbn [bind].
  rewrite Hpc. cbn [bind]. rewrite Hsub. reflexivity.
Qed.

Lemma for_each_raises {A S : Type} (l : list A) (body : A -> S -> result S)
    (x : A) :
  In x l -> (forall s, exists e, body x s = Raise e) ->
  forall s, exists e, for_each l body s = Raise e.
Proof.
  intros Hin Hraises.
  induction l as [|y l IH]; intros s; [contradiction|].
  cbn [for_each]. destruct Hin as [-> | Hin].
  - destruct (Hraises s) as (e & ->). now exists e.
  - destruct (body y s) as [s'|e]; cbn [bind]; [now apply IH | now exists e].
Qed.

(** X14. Without a status filter and a target label, one job with two
    timestamps that parse, anywhere in the runs of the repositories that
    are visited, makes [analyze_runner_usage] raise instead of returning a
    report. *)
Theorem finished_job_aborts (py : Builtins) (api : GitHubAPI)
    (org_name : string) (days_back : Z) (group_by : string)
    (repo_filter : option string) (repos : list Repository)
    (repo : Repository) (runs : list WorkflowRun) (run : WorkflowRun)
    (jobs : list Job) (job : Job)
    (Hrepos : get_repositories api = Return repos)
    (Hrepo : In repo (apply_repo_filter repo_filter repos))
    (Hruns : get_workflow_runs api (repo_name repo) (repo_default_branch repo)
               days_back = Return runs)
    (Hrun : In run runs)
    (Hjobs : get_jobs_for_run api (repo_name repo) (run_id run) = Return jobs)
    (Hjob : In job jobs)
    (Htimes : has_interval job) :
  exists e,
    analyze_runner_usage py api org_name None days_back group_by None
      repo_filter = Raise e.
Proof.
  assert (Hcollect : exists e,
            collect api org_name None days_back None repo_filter = Raise e).
  { unfold collect. rewrite Hrepos. cbn [bind].
    apply (for_each_raises _ _ repo Hrepo). intros s.
    unfold process_repo. rewrite Hruns. cbn [bind].
    apply (for_each_raises _ _ run Hrun). clear s. intros s.
    unfold process_run. rewrite Hjobs. cbn [bind].
    apply (for_each_raises _ _ job Hjob). clear s. intros s.
    unfold process_job. cbn [bind].
    destruct (job_labels job); cbn [bind].
    - rewrite (calculate_duration_raises job Htimes). now eexists.
    - now eexists.
    - rewrite (calculate_duration_raises job Htimes). now eexists. }
  destruct Hcollect as (e & Hcollect). exists e.
  unfold analyze_runner_usage. now rewrite Hcollect.
Qed.

Lemma finished_job_aborts_witness :
  exists e,
    analyze_runner_usage exact_builtins api_finished_job "acme" None 30
      "none" None None = Raise e.
Proof.
  apply (finished_job_aborts exact_builtins api_finished_job "acme" 30 "none"
           None [repo_web] repo_web [run_ci 1] (run_ci 1)
           [job_without_labels; job_finished] job_finished).
  - reflexivity.
  - now left.
  - reflexivity.
  - now left.
  - reflexivity.
  - right. now left.
  - unfold has_interval. do 5 eexists.
    repeat split; try reflexivity; vm_compute; reflexivity.
Defined.

(** ** Order and statistics of the groups *)

Lemma In_distinct (x : value) (l : list value) : In x (distinct l) <-> In x l.
Proof.
  induction l as [|a l IH]; cbn [distinct In]; [tauto|].
  rewrite filter_In, IH. split.
  - intros [-> | [Hin _]]; [now left | now right].
  - intros [-> | Hin]; [now left|].
    destruct (value_eqb a x) eqn:Hax.
    + apply value_eqb_eq in Hax. now left.
    + right. now split.
Qed.

Lemma existsb_key (key : value) (l : list value) :
  existsb (fun k => value_eqb k key) l = true <-> In key l.
Proof.
  rewrite existsb_exists. split.
  - intros (k & Hin & Hk). apply value_eqb_eq in Hk. now subst k.
  - intros Hin. exists key. split; [assumption | apply value_eqb_refl].
Qed.

Lemma distinct_snoc (l : list value) (x : value) :
  distinct (l ++ [x])
  = if existsb (fun k => value_eqb k x) l then distinct l
    else (distinct l ++ [x])%list.
Proof.
  induction l as [|a l IH]; cbn [app distinct existsb]; [reflexivity|].
  rewrite IH. destruct (value_eqb a x) eqn:Hax; cbn [orb].
  - apply value_eqb_eq in Hax. subst a.
    destruct (existsb _ l); [reflexivity|].
    rewrite filter_app. cbn [filter]. rewrite value_eqb_refl.
    cbn [negb]. now rewrite app_nil_r.
  - destruct (existsb _ l); [reflexivity|].
    rewrite filter_app. cbn [filter]. rewrite Hax. reflexivity.
Qed.

Lemma keys_append_eq (grouped : list (value * list JobRecord))
    (key : value) (result : JobRecord) :
  map fst (grouped_append grouped key result)
  = if existsb (fun k => value_eqb k key) (map fst grouped)
    then map fst grouped else (map fst grouped ++ [key])%list.
Proof.
  induction grouped as [|[k group_items] grouped IH];
    cbn [grouped_append map fst existsb app]; [reflexivity|].
  destruct (value_eqb k key); cbn [orb map fst]; [reflexivity|].
  rewrite IH. now destruct (existsb _ (map fst grouped)).
Qed.

(** The groups are in the order in which their keys first occur. *)
Lemma group_records_order (group_by : string) (results : list JobRecord) :
  map fst (group_records results group_by)
  = distinct (map (group_key group_by) results).
Proof.
  induction results as [|result results IH] using rev_ind; [reflexivity|].
  rewrite group_records_snoc, keys_append_eq, map_app.
  cbn [map]. rewrite distinct_snoc, IH.
  destruct (existsb _ (distinct _)) eqn:Hd;
    destruct (existsb _ (map _ results)) eqn:Hm; try reflexivity; exfalso.
  - apply (proj1 (existsb_key _ _)) in Hd.
    apply (proj1 (In_distinct _ _)) in Hd.
    apply (proj2 (existsb_key _ _)) in Hd. congruence.
  - apply (proj1 (existsb_key _ _)) in Hm.
    apply (proj2 (In_distinct _ _)) in Hm.
    apply (proj2 (existsb_key _ _)) in Hm. congruence.
Qed.

(** X15. The rows of [_group_results] come in the order in which their
    keys first occur in the records, one row for each key. *)
Theorem group_results_first_seen_order (py : Builtins)
    (results : list JobRecord) (group_by : string) :
  map Group (_group_results py results group_by)
  = distinct (map (group_key group_by) results).
Proof.
  rewrite group_results_rows, map_map, <- group_records_order.
  apply map_ext. intros group. apply summarize_Group.
Qed.

Lemma filter_head_find {A : Type} (f : A -> bool) (l : list A) :
  find f l = match filter f l with x :: _ => Some x | [] => None end.
Proof.
  induction l as [|a l IH]; cbn [find filter]; [reflexivity|].
  now destruct (f a).
Qed.

Lemma group_records_items (group_by : string) (results : list JobRecord)
    (key : value) (group_items : list JobRecord) :
  In (key, group_items) (group_records results group_by) ->
  group_items
  = filter (fun result => value_eqb (group_key group_by result) key) results.
Proof.
  intros Hin. rewrite <- group_records_group_of.
  symmetry. apply group_of_In; [apply group_records_NoDup | assumption].
Qed.

(** X16. The sample repository of a row is the repository of the first
    record, in the order of the input, that has the row's key. *)
Theorem group_results_sample_repository (py : Builtins)
    (results : list JobRecord) (group_by : string) :
  Forall (fun row =>
            exists first,
              find (fun record =>
                      value_eqb (group_key group_by record) (Group row))
                results = Some first
              /\ Sample_Repository row = VStr (Repo first))
    (_group_results py results group_by).
Proof.
  rewrite group_results_rows. apply Forall_map, Forall_forall.
  intros [key group_items] Hgroup.
  cbn [summarize Group Sample_Repository].
  rewrite filter_head_find, <- (group_records_items _ _ _ _ Hgroup).
  assert (Hkey : In key (map fst (group_records results group_by))).
  { change key with (fst (key, group_items)). now apply in_map. }
  apply group_records_keys in Hkey as (record & Hin & Hrecord).
  assert (Hmem : In record group_items).
  { rewrite (group_records_items _ _ _ _ Hgroup). apply filter_In.
    split; [assumption | now apply value_eqb_eq]. }
  destruct group_items as [|first group_items]; [contradiction|].
  exists first. split; reflexivity.
Qed.

Lemma filter_all {A : Type} (f : A -> bool) (l : list A) :
  (forall x, In x l -> f x = true) -> filter f l = l.
Proof.
  induction l as [|a l IH]; cbn [filter]; intros Hall; [reflexivity|].
  rewrite (Hall a) by now left.
  f_equal. apply IH. intros x Hx. apply Hall. now right.
Qed.

Lemma filter_none {A : Type} (f : A -> bool) (l : list A) :
  (forall x, In x l -> f x = false) -> filter f l = [].
Proof.
  induction l as [|a l IH]; cbn [filter]; intros Hall; [reflexivity|].
  rewrite (Hall a) by now left.
  apply IH. intros x Hx. apply Hall. now right.
Qed.

Lemma status_count_in_status_group (results : list JobRecord) (key : value)
    (status : string) :
  let group_items :=
    filter (fun result => value_eqb (group_key "status" result) key)
      results in
  py_sum (map (fun _ => 1) (filter (is_status status) group_items))
  = if value_eqb key (VStr status) then len group_items else 0.
Proof.
  cbv zeta. rewrite py_sum_ones.
  destruct (value_eqb key (VStr status)) eqn:Hkey.
  - apply value_eqb_eq in Hkey. subst key.
    rewrite filter_all; [reflexivity|].
    intros item Hitem. apply filter_In in Hitem as [_ Hitem]. exact Hitem.
  - rewrite filter_none; [reflexivity|].
    intros item Hitem. apply filter_In in Hitem as [_ Hitem].
    apply value_eqb_eq in Hitem. unfold is_status.
    change (record_get item "Job Status" VNone) with (group_key "status" item).
    now rewrite Hitem.
Qed.

(** X17. When the records are grouped by status, a row counts all its
    jobs as successful if its key is [completed] and none otherwise, and
    all its jobs as failed if its key is [failure] and none otherwise. *)
Theorem group_by_status_all_or_nothing (py : Builtins)
    (results : list JobRecord) :
  Forall (fun row =>
            Successful_Jobs row
            = (if value_eqb (Group row) (VStr "completed")
               then Total_Jobs row else 0)
            /\ Failed_Jobs row
               = (if value_eqb (Group row) (VStr "failure")
                  then Total_Jobs row else 0))
    (_group_results py results "status").
Proof.
  rewrite group_results_rows. apply Forall_map, Forall_forall.
  intros [key group_items] Hgroup.
  cbn [summarize Group Successful_Jobs Failed_Jobs Total_Jobs].
  rewrite (group_records_items _ _ _ _ Hgroup).
  split; apply status_count_in_status_group.
Qed.

Lemma counts_append (f : JobRecord -> bool)
    (grouped : list (value * list JobRecord)) (key : value)
    (result : JobRecord) :
  py_sum (map (fun group => len (filter f (snd group)))
            (grouped_append grouped key result))
  = py_sum (map (fun group => len (filter f (snd group))) grouped)
    + len (filter f [result]).
Proof.
  induction grouped as [|[k group_items] grouped IH];
    cbn [grouped_append map snd].
  - rewrite py_sum_cons. unfold py_sum at 1 2. cbn [fold_left]. lia.
  - destruct (value_eqb k key); cbn [map snd]; rewrite !py_sum_cons.
    + rewrite filter_app, len_app. lia.
    + rewrite IH. lia.
Qed.

Lemma group_records_counts (f : JobRecord -> bool) (group_by : string)
    (results : list JobRecord) :
  py_sum (map (fun group => len (filter f (snd group)))
            (group_records results group_by))
  = len (filter f results).
Proof.
  induction results as [|result results IH] using rev_ind; [reflexivity|].
  now rewrite group_records_snoc, counts_append, IH, filter_app, len_app.
Qed.

(** X18. Grouping keeps the overall counts: over all rows, the successful
    jobs add up to the number of records of status [completed] and the
    failed jobs to the number of records of status [failure], whatever
    field the records are grouped by. *)
Theorem group_results_status_totals (py : Builtins)
    (results : list JobRecord) (group_by : string) :
  py_sum (map Successful_Jobs (_group_results py results group_by))
  = len (filter (is_status "completed") results)
  /\ py_sum (map Failed_Jobs (_group_results py results group_by))
     = len (filter (is_status "failure") results).
Proof.
  rewrite group_results_rows, !map_map.
  split.
  - rewrite <- (group_records_counts (is_status "completed") group_by results).
    f_equal. apply map_ext. intros [key group_items].
    cbn [summarize Successful_Jobs snd]. apply py_sum_ones.
  - rewrite <- (group_records_counts (is_status "failure") group_by results).
    f_equal. apply map_ext. intros [key group_items].
    cbn [summarize Failed_Jobs snd]. apply py_sum_ones.
Qed.

(** The seven documented field names select these keys: [repo] the
    repository, [label] the joined runner labels, [status] the job status,
    [workflow] the workflow name, [branch] the branch, [runner_type] the
    runner type and [cost_category] the cost category. *)
Lemma group_key_documented_fields (record : JobRecord) :
  group_key "repo" record = VStr (Repo record)
  /\ group_key "label" record = VStr (Runner_Labels record)
  /\ group_key "status" record = Job_Status record
  /\ group_key "workflow" record = Workflow_Name record
  /\ group_key "branch" record = VStr (Branch record)
  /\ group_key "runner_type" record = VStr (Runner_Type record)
  /\ group_key "cost_category" record = VStr (Cost_Category record).
Proof.
  repeat split.
Qed.

(** ** Empty organization *)

(** X19. When the first page of the organization's repositories is
    empty, [analyze_runner_usage] returns an empty report, flat or
    grouped, for any filters, and asks for no runs and no jobs. *)
Theorem empty_organization (py : Builtins) (api : GitHubAPI)
    (org_name : string) (target_label : option string) (days_back : Z)
    (group_by : string) (status_filter repo_filter : option string)
    (Hempty : org_repos api 1 = Return []) :
  analyze_runner_usage py api org_name target_label days_back group_by
    status_filter repo_filter
  = Return (if String.eqb group_by "none" then Flat [] else Grouped []).
Proof.
  unfold analyze_runner_usage, collect, get_repositories.
  cbn [get_repositories_from]. rewrite Hempty. cbn [bind].
  replace (apply_repo_filter repo_filter []) with (@nil Repository).
  - cbn [for_each bind]. unfold group_if_requested.
    now destruct (String.eqb group_by "none").
  - unfold apply_repo_filter. destruct repo_filter as [f|]; [|reflexivity].
    now destruct (truthy f).
Qed.

Lemma empty_organization_witness :
  analyze_runner_usage exact_builtins
    {| org_repos := fun _ => Return [];
       workflow_runs := fun _ _ _ => Raise GitHubAPIError;
       run_jobs := fun _ _ => Raise GitHubAPIError |}
    "acme" (Some "gpu") 30 "repo" None (Some "web")
  = Return (Grouped []).
Proof.
  now rewrite empty_organization.
Defined.

(** ** Statistics of the step summary *)

Lemma column_items (key : string) (f : JobRecord -> value)
    (records : list JobRecord) :
  (forall record, lookup key (items record) = Some (f record)) ->
  column key (map items records) = Found (map f records).
Proof.
  intros Hkey. induction records as [|record records IH]; cbn [map column];
    [reflexivity|].
  now rewrite Hkey, IH.
Qed.

Lemma counter_get_add (counter : list (value * Z)) (x key : value) :
  counter_get (counter_add counter x) key 0
  = counter_get counter key 0 + (if value_eqb x key then 1 else 0).
Proof.
  induction counter as [|[k n] counter IH]; cbn [counter_add counter_get].
  - destruct (value_eqb x key); lia.
  - destruct (value_eqb k x) eqn:Hkx; cbn [counter_get].
    + apply value_eqb_eq in Hkx. subst k.
      destruct (value_eqb x key); lia.
    + destruct (value_eqb k key) eqn:Hkk; [|apply IH].
      apply value_eqb_eq in Hkk. subst k.
      destruct (value_eqb x key) eqn:Hxk; [|lia].
      apply value_eqb_eq in Hxk. subst x.
      now rewrite value_eqb_refl in Hkx.
Qed.

(** A counter holds, for each value, how often it occurs. *)
Lemma counter_get_Counter (l : list value) (key : value) :
  counter_get (Counter l) key 0
  = len (filter (fun x => value_eqb x key) l).
Proof.
  unfold Counter.
  induction l as [|x l IH] using rev_ind; [reflexivity|].
  rewrite fold_left_app. cbn [fold_left].
  rewrite counter_get_add, IH, filter_app, len_app. cbn [filter].
  now destruct (value_eqb x key).
Qed.

Lemma group_results_nonempty (py : Builtins) (results : list JobRecord)
    (group_by : string) :
  results <> [] -> _group_results py results group_by <> [].
Proof.
  intros Hne Hrows. destruct results as [|result results]; [congruence|].
  assert (Hkey : In (group_key group_by result)
                   (map fst (group_records (result :: results) group_by))).
  { apply group_records_keys. exists result. split; [now left | reflexivity]. }
  rewrite group_results_rows in Hrows.
  destruct (group_records (result :: results) group_by); [contradiction|].
  discriminate Hrows.
Qed.

(** X20. The statistics of the step summary fail on every grouped report
    that has a row: a group has no key [Repo], and the first statistic
    reads that key by subscript. This holds in particular for what
    [_group_results] makes of any records that are there. *)
Theorem github_summary_grouped_KeyError (py : Builtins)
    (summaries : list GroupSummary) (results : list JobRecord)
    (group_by : string) :
  (summaries <> [] ->
   github_summary_statistics (report_rows (Grouped summaries))
   = KeyError "Repo")
  /\ (results <> [] ->
      github_summary_statistics
        (report_rows (Grouped (_group_results py results group_by)))
      = KeyError "Repo").
Proof.
  assert (Hgrouped : forall rows : list GroupSummary,
            rows <> [] ->
            github_summary_statistics (report_rows (Grouped rows))
            = KeyError "Repo").
  { intros [|row rows] Hne; [congruence | reflexivity]. }
  split; [apply Hgrouped|].
  intros Hne. apply Hgrouped. now apply group_results_nonempty.
Qed.

Lemma github_summary_grouped_KeyError_witness :
  github_summary_statistics
    (report_rows (Grouped (_group_results exact_builtins scenario_1 "status")))
  = KeyError "Repo".
Proof.
  apply (proj2 (github_summary_grouped_KeyError exact_builtins []
                  scenario_1 "status")).
  discriminate.
Defined.

(** X21. On a flat report the statistics of the step summary are found:
    the total is the number of records, and the counts of the statuses
    [completed] and [failure] are the numbers of records of these
    statuses, the numbers that the group summaries call successful and
    failed. *)
Theorem github_summary_flat_statistics (records : list JobRecord) :
  exists statistics,
    github_summary_statistics (report_rows (Flat records)) = Found statistics
    /\ total_jobs statistics = len records
    /\ counter_get (status_counts statistics) (VStr "completed") 0
       = len (filter (is_status "completed") records)
    /\ counter_get (status_counts statistics) (VStr "failure") 0
       = len (filter (is_status "failure") records).
Proof.
  unfold github_summary_statistics, report_rows.
  rewrite (column_items "Repo" (fun r => VStr (Repo r))) by reflexivity.
  rewrite (column_items "Workflow File" Workflow_File) by reflexivity.
  rewrite (column_items "Job Status" Job_Status) by reflexivity.
  rewrite (column_items "Runner Labels" (fun r => VStr (Runner_Labels r)))
    by reflexivity.
  eexists. split; [reflexivity|].
  cbn [total_jobs status_counts].
  unfold len. rewrite length_map. split; [reflexivity|].
  rewrite !counter_get_Counter. unfold len.
  split; f_equal; f_equal;
    (induction records as [|r records IH]; cbn [map filter];
     [reflexivity|];
     unfold is_status at 1;
     change (record_get r "Job Status" VNone) with (Job_Status r);
     destruct (value_eqb (Job_Status r) _); cbn [List.length];
     now rewrite IH).
Qed.

(** ** Outcomes of the duration calculator *)

(** X22. The outcomes of the duration calculator: it raises
    [AttributeError] for a job whose two timestamps are there and parse,
    both with an offset or both without; it returns ["unknown"] for a job
    one of whose timestamps is missing, [null] or empty; and for no job
    does it do anything else, so it formats no duration. *)
Theorem calculate_duration_outcomes (job : Job) :
  (has_interval job -> _calculate_duration job = Raise AttributeError)
  /\ (get (job_started_at job) = None
      \/ get (job_started_at job) = Some EmptyString
      \/ get (job_completed_at job) = None
      \/ get (job_completed_at job) = Some EmptyString ->
      _calculate_duration job = Return "unknown")
  /\ (_calculate_duration job = Return "unknown"
      \/ _calculate_duration job = Raise AttributeError).
Proof.
  split; [apply calculate_duration_raises|].
  split; [|apply calculate_duration_unknown_or_raises].
  unfold _calculate_duration, _calculate_duration_with, both_truthy.
  intros [Hs | [Hs | [Hc | Hc]]].
  - now rewrite Hs.
  - now rewrite Hs; destruct (get (job_completed_at job)).
  - rewrite Hc. now destruct (get (job_started_at job)).
  - rewrite Hc. destruct (get (job_started_at job)); [|reflexivity].
    cbn [truthy]. now rewrite andb_false_r.
Qed.

Lemma calculate_duration_outcomes_witness :
  _calculate_duration job_finished = Raise AttributeError
  /\ _calculate_duration job_running = Return "unknown".
Proof.
  split.
  - apply (proj1 (calculate_duration_outcomes job_finished)).
    unfold has_interval. do 5 eexists.
    repeat split; try reflexivity; vm_compute; reflexivity.
  - apply (proj1 (proj2 (calculate_duration_outcomes job_running))).
    right. right. left. reflexivity.
Defined.

(** ** Repository filter *)

Lemma for_each_Forall_In {A B : Type} (P : B -> Prop) (l : list A)
    (body : A -> list B -> result (list B)) :
  (forall x s s', In x l -> Forall P s -> body x s = Return s' ->
     Forall P s') ->
  forall s s', Forall P s -> for_each l body s = Return s' -> Forall P s'.
Proof.
  induction l as [|x l IH]; intros Hbody s s' Hs Hrun;
    cbn [for_each] in Hrun.
  - now injection Hrun as <-.
  - destruct (body x s) as [s1|e] eqn:Hx; cbn [bind] in Hrun; [|discriminate].
    apply (IH (fun y t t' Hy => Hbody y t t' (or_intror Hy)) s1 s');
      [|assumption].
    apply (Hbody x s); [now left | assumption | assumption].
Qed.

(** X23. With a repository filter, every record of the collection comes
    from a repository whose name contains the filter, up to letter case. *)
Theorem collect_repo_filter (api : GitHubAPI) (org_name : string)
    (target_label : option string) (days_back : Z)
    (status_filter : option string) (name_filter : string)
    (records : list JobRecord)
    (Hfilter : truthy name_filter = true)
    (Hcollect : collect api org_name target_label days_back status_filter
                  (Some name_filter) = Return records) :
  Forall (fun record =>
            contains (lower name_filter) (lower (Repo record)) = true)
    records.
Proof.
  unfold collect in Hcollect.
  destruct (get_repositories api) as [repos|e]; cbn [bind] in Hcollect;
    [|discriminate].
  revert Hcollect. apply for_each_Forall_In; [|constructor].
  intros repo s s' Hrepo Hs. unfold apply_repo_filter in Hrepo.
  rewrite Hfilter in Hrepo. apply filter_In in Hrepo as [_ Hname].
  unfold process_repo.
  destruct (get_workflow_runs _ _ _ _) as [runs|e]; cbn [bind];
    [|discriminate].
  apply for_each_Forall; [|assumption].
  clear s s' Hs. intros run s s' Hs. unfold process_run.
  destruct (get_jobs_for_run _ _ _) as [jobs|e]; cbn [bind]; [|discriminate].
  apply for_each_Forall; [|assumption].
  clear s s' Hs. intros job s s' Hs Hrun.
  destruct (process_job_emits _ _ _ _ _ _ _ _ Hrun)
    as [-> | (record & labels & -> & _ & Hrecord & _)]; [assumption|].
  apply Forall_app. split; [assumption|].
  constructor; [|constructor]. now rewrite Hrecord.
Qed.

Lemma collect_repo_filter_witness :
  exists records,
    collect api_partial_failures "acme" None 30 None (Some "ML")
    = Return records
    /\ map Repo records = ["ml"]
    /\ Forall (fun record =>
                 contains (lower "ML") (lower (Repo record)) = true) records.
Proof.
  eexists. split; [vm_compute; reflexivity|]. split; [reflexivity|].
  apply (collect_repo_filter api_partial_failures "acme" None 30 None "ML");
    [reflexivity | vm_compute; reflexivity].
Defined.

(** ** Defaults that are never used *)

(** X24. No row of [_group_results] takes the success rate ["0%"] of an
    empty group: every row has at least one job and its success rate is the
    formatted share of its successful jobs. *)
Theorem group_results_success_rate (py : Builtins)
    (results : list JobRecord) (group_by : string) :
  Forall (fun row =>
            0 < Total_Jobs row
            /\ Success_Rate row
               = percent_1f py (Successful_Jobs row) (Total_Jobs row) ++ "%")
    (_group_results py results group_by).
Proof.
  rewrite group_results_rows. apply Forall_map, Forall_forall.
  intros [key group_items] Hgroup.
  assert (Hpos : 0 < len group_items).
  { assert (Hkey : In key (map fst (group_records results group_by))).
    { change key with (fst (key, group_items)). now apply in_map. }
    apply group_records_keys in Hkey as (record & Hin & Hrecord).
    assert (Hmem : In record group_items).
    { rewrite (group_records_items _ _ _ _ Hgroup). apply filter_In.
      split; [assumption | now apply value_eqb_eq]. }
    unfold len. destruct group_items; [contradiction | cbn; lia]. }
  cbn [summarize Total_Jobs Success_Rate Successful_Jobs].
  split; [assumption|].
  destruct (len group_items >? 0) eqn:Hgt; [reflexivity | lia].
Qed.
